(** * A shallow embedding of [examples/python/basic_staking.py]

    The Phase staking example is a thin asynchronous workflow: it opens an
    HTTP session, asks the staking service for its health, queries the
    wallet balance over RPC, asks the service to build an unsigned stake
    transaction, signs it and submits it.

    The embedding keeps the control flow of the Python source (guards,
    [try]/[except]/[finally], [async with]) and makes every collaborator
    (aiohttp, the Solana SDK, base64) a field of a [world] record that
    answers each call, possibly with an exception, as a function of the
    calls made so far.  A run of a function is then a pure function from
    the world to the list of events it caused and its outcome. *)

From Stdlib Require Import ZArith String Ascii List Bool Lia.
From Stdlib Require Import Floats SpecFloat DecimalString.
Import ListNotations.

Set Warnings "-inexact-float,-register-all".

Local Open Scope string_scope.
Local Open Scope Z_scope.
Local Open Scope list_scope.

(** ** Python values *)

Module Py.

(** Exceptions, all of them subclasses of Python's [Exception], which is
    what the [except Exception] clauses of the source catch.  The two first
    are raised by the source itself with the message it gives; the next
    ones are raised by the Python runtime on the operations the source
    performs ([d[k]], [d.get], [+], [/], a local read before its
    assignment); [External] stands for whatever a collaborator library
    raises (a transport error, a JSON decoding error, an RPC error ...),
    identified by an opaque label.  Exits that are not an [Exception]
    (task cancellation, a keyboard interrupt) are not modelled. *)
Inductive exn : Type :=
| RuntimeError (msg : string)
| Exception_ (msg : string)
| KeyError (key : string)
| TypeError
| AttributeError
| OverflowError
| UnboundLocalError (var : string)
| External (label : string).

Inductive result (A : Type) : Type :=
| Ok (a : A)
| Raise (e : exn).
Arguments Ok {A} a.
Arguments Raise {A} e.

(** What [json.loads] / [response.json()] can produce, which is also what
    the source puts in its request body and in its outcome record.  A
    [dict] is an association list in insertion order with distinct keys. *)
Inductive value : Type :=
| JNull
| JBool (b : bool)
| JInt (z : Z)
| JFloat (f : float)
| JStr (s : string)
| JList (l : list value)
| JObj (d : list (string * value)).

Definition dict := list (string * value).

Fixpoint dict_lookup (d : dict) (k : string) : option value :=
  match d with
  | [] => None
  | (k', v) :: d' => if String.eqb k' k then Some v else dict_lookup d' k
  end.

(** [d[k] = v] on a dict: replace the binding in place, or append it. *)
Fixpoint dict_set (d : dict) (k : string) (v : value) : dict :=
  match d with
  | [] => [(k, v)]
  | (k', v') :: d' =>
      if String.eqb k' k then (k', v) :: d' else (k', v') :: dict_set d' k v
  end.

Definition dict_keys (d : dict) : list string := map fst d.

(** [o[k]] with a string key. *)
Definition getitem (o : value) (k : string) : result value :=
  match o with
  | JObj d => match dict_lookup d k with
              | Some v => Ok v
              | None => Raise (KeyError k)
              end
  | _ => Raise TypeError
  end.

(** [o.get(k, default)]: only a dict has the method. *)
Definition get (o : value) (k : string) (default : value) : result value :=
  match o with
  | JObj d => match dict_lookup d k with
              | Some v => Ok v
              | None => Ok default
              end
  | _ => Raise AttributeError
  end.

(** Truth value testing. *)
Definition truthy (v : value) : bool :=
  match v with
  | JNull => false
  | JBool b => b
  | JInt z => negb (z =? 0)
  | JFloat f => negb (PrimFloat.eqb f 0%float)
  | JStr s => negb (String.eqb s "")
  | JList l => match l with [] => false | _ => true end
  | JObj d => match d with [] => false | _ => true end
  end.

(** [v == s] for a string literal [s]. *)
Definition eq_str (v : value) (s : string) : bool :=
  match v with
  | JStr x => String.eqb x s
  | _ => false
  end.

(** [float(z)] for an integer: the nearest double, or [OverflowError]. *)
Definition float_of_int (z : Z) : result float :=
  let f := SF2Prim (binary_normalize prec emax z 0 false) in
  if PrimFloat.is_infinity f then Raise OverflowError else Ok f.

(** [a / b] for two integers, [b] positive: the correctly rounded quotient. *)
Definition int_truediv (a b : Z) : result float :=
  if a =? 0 then Ok 0%float
  else
    let q := SFdiv prec emax (S754_finite (a <? 0) (Z.to_pos (Z.abs a)) 0)
                             (S754_finite false (Z.to_pos b) 0) in
    let f := SF2Prim q in
    if PrimFloat.is_infinity f then Raise OverflowError else Ok f.

(** [v / b] for a positive integer literal [b]. *)
Definition truediv_int (v : value) (b : Z) : result float :=
  match v with
  | JInt a => int_truediv a b
  | JBool a => int_truediv (if a then 1 else 0) b
  | JFloat f =>
      match float_of_int b with
      | Ok fb => Ok (PrimFloat.div f fb)
      | Raise e => Raise e
      end
  | _ => Raise TypeError
  end.

(** [a + b]. *)
Definition add (a b : value) : result value :=
  let num (v : value) : option (Z + float) :=
    match v with
    | JInt z => Some (inl z)
    | JBool c => Some (inl (if c then 1 else 0))
    | JFloat f => Some (inr f)
    | _ => None
    end in
  match num a, num b with
  | Some (inl x), Some (inl y) => Ok (JInt (x + y))
  | Some (inl x), Some (inr g) =>
      match float_of_int x with
      | Ok f => Ok (JFloat (PrimFloat.add f g))
      | Raise e => Raise e
      end
  | Some (inr f), Some (inl y) =>
      match float_of_int y with
      | Ok g => Ok (JFloat (PrimFloat.add f g))
      | Raise e => Raise e
      end
  | Some (inr f), Some (inr g) => Ok (JFloat (PrimFloat.add f g))
  | _, _ =>
      match a, b with
      | JStr s, JStr t => Ok (JStr (s ++ t))
      | JList l, JList m => Ok (JList (l ++ m))
      | _, _ => Raise TypeError
      end
  end.

(** [s.rstrip(c)] for a one-character [c]. *)
Fixpoint rstrip (c : ascii) (s : string) : string :=
  match s with
  | EmptyString => EmptyString
  | String a t =>
      match rstrip c t with
      | EmptyString => if Ascii.eqb a c then EmptyString else String a EmptyString
      | t' => String a t'
      end
  end.

(** [str(v)], as an f-string renders [v].  A string is rendered as itself,
    [None], booleans and integers as Python prints them; the rendering of
    floats and containers is left to [repr_other]. *)
Definition str (repr_other : value -> string) (v : value) : string :=
  match v with
  | JStr s => s
  | JNull => "None"
  | JBool true => "True"
  | JBool false => "False"
  | JInt z => NilZero.string_of_int (Z.to_int z)
  | _ => repr_other v
  end.

End Py.
Import Py.

(** ** Collaborators, events and the world *)

Definition bytes := list Byte.byte.

(** [solana.publickey.PublicKey]: [str(pk)] is its base58 text. *)
Record PublicKey := { base58 : string }.

(** [solana.keypair.Keypair]. *)
Record Keypair := { public_key : PublicKey; secret_key : bytes }.

(** [solana.transaction.Transaction]: the message and its signatures. *)
Record Transaction := { message : bytes; signatures : list bytes }.

Inductive Commitment := Processed | Confirmed | Finalized.

(** [solana.rpc.async_api.AsyncClient(endpoint, commitment=...)]. *)
Record AsyncClient := { endpoint : string; commitment : Commitment }.

(** [aiohttp.ClientSession], as a handle. *)
Record ClientSession := { session_id : nat }.

(** [aiohttp.ClientResponse]: its status and what [await response.json()]
    gives (an exception when the body is not JSON). *)
Record ClientResponse := { status : Z; json : result value }.

(** [response.ok]: aiohttp defines it as [400 > self.status]. *)
Definition ok (r : ClientResponse) : bool := status r <? 400.

(** The lines the example prints, each with the values it interpolates.
    [marker] gives the emoji the line starts with. *)
Inductive line : Type :=
| Building (stake_amount : float)
| Built
| StakeAccountLine (v : value)
| ValidatorLine (v : value)
| ApyLine (v : value)
| TotalFeesLine (v : value)
| SignedLine
| SuccessLine
| TxLink (signature : value)
| StakeLink (v : value)
| StakingFailed (error : exn)
| Healthy (latency : value)
| Unhealthy
| MissingEnv
| BalanceLine (balance_sol : float)
| Insufficient (balance_sol : float)
| CompleteLine
| Dump (result : value)
| ErrorLine (error : exn).

Inductive emoji := Rocket | CheckMark | Memo | Target | Chart | MoneyBag
  | Pen | Party | Link | BarChart | CrossMark | Flag | NoEmoji.

Definition marker (l : line) : emoji :=
  match l with
  | Building _ => Rocket
  | Built => CheckMark
  | StakeAccountLine _ => Memo
  | ValidatorLine _ => Target
  | ApyLine _ => Chart
  | TotalFeesLine _ => MoneyBag
  | SignedLine => Pen
  | SuccessLine => Party
  | TxLink _ => Link
  | StakeLink _ => BarChart
  | StakingFailed _ => CrossMark
  | Healthy _ => CheckMark
  | Unhealthy => CrossMark
  | MissingEnv => CrossMark
  | BalanceLine _ => MoneyBag
  | Insufficient _ => CrossMark
  | CompleteLine => Flag
  | Dump _ => NoEmoji
  | ErrorLine _ => CrossMark
  end.

(** One event per call to a collaborator, with the arguments the source
    passes and the answer the call got, and one per printed line. *)
Inductive event : Type :=
| ENewSession (r : result ClientSession)
| ECloseSession (s : ClientSession) (r : result unit)
| EPost (s : ClientSession) (url : string) (body : value)
        (headers : list (string * string)) (r : result ClientResponse)
| EGet (s : ClientSession) (url : string) (r : result ClientResponse)
| EGetBalance (c : AsyncClient) (pk : PublicKey) (r : result value)
| ESign (tx : Transaction) (kp : Keypair) (r : result Transaction)
| ESendTransaction (c : AsyncClient) (tx : Transaction) (r : result value)
| EConfirmTransaction (c : AsyncClient) (signature : value) (r : result value)
| ECloseRpc (c : AsyncClient) (r : result unit)
| EPrint (l : line).

Definition history := list event.

(** The environment of a run.  A call that talks to the outside is answered
    from the history of the run so far, so the world may answer the same
    call differently the second time; the SDK's pure functions depend on
    their arguments only. *)
Record world := {
  getenv : string -> option string;
  new_session : history -> result ClientSession;
  session_close : history -> ClientSession -> result unit;
  session_post : history -> ClientSession -> string -> value ->
                 list (string * string) -> result ClientResponse;
  session_get : history -> ClientSession -> string -> result ClientResponse;
  b64decode : value -> result bytes;
  from_secret_key : bytes -> result Keypair;
  deserialize : bytes -> result Transaction;
  sign : Transaction -> Keypair -> result Transaction;
  get_balance : history -> AsyncClient -> PublicKey -> result value;
  send_transaction : history -> AsyncClient -> Transaction -> result value;
  confirm_transaction : history -> AsyncClient -> value -> result value;
  rpc_close : history -> AsyncClient -> result unit;
  repr_other : value -> string
}.

(** ** The monad of runs

    A computation reads the local frame of [main] (its one variable that a
    [finally] block reads back, [solana_client]) and the history so far; it
    gives the new frame, the events it caused, in order, and its outcome. *)

Record frame := { solana_client : option AsyncClient }.

Definition M (A : Type) : Type :=
  frame -> history -> frame * list event * result A.

Definition ret {A} (a : A) : M A := fun fr _ => (fr, [], Ok a).

Definition raise {A} (e : exn) : M A := fun fr _ => (fr, [], Raise e).

Definition bind {A B} (c : M A) (k : A -> M B) : M B :=
  fun fr h =>
    match c fr h with
    | (fr1, evs1, Ok a) =>
        match k a fr1 (h ++ evs1)%list with
        | (fr2, evs2, r) => (fr2, (evs1 ++ evs2)%list, r)
        end
    | (fr1, evs1, Raise e) => (fr1, evs1, Raise e)
    end.

Notation "x <- c ;; k" := (bind c (fun x => k))
  (at level 61, c at next level, right associativity).
Notation "c ;; k" := (bind c (fun _ => k))
  (at level 61, right associativity).

(** A pure operation that may raise. *)
Definition lift {A} (r : result A) : M A := fun fr _ => (fr, [], r).

(** A call to the outside: ask the world, record the event. *)
Definition call {A} (ask : history -> result A) (ev : result A -> event) : M A :=
  fun fr h => let r := ask h in (fr, [ev r], r).

(** [print(...)] of a line, when the line can be printed; [print_io] below
    is the [print] that can raise. *)
Definition print (l : line) : M unit := fun fr _ => (fr, [EPrint l], Ok tt).

(** [try: c except Exception as e: handler e]. *)
Definition try_except {A} (c : M A) (handler : exn -> M A) : M A :=
  fun fr h =>
    match c fr h with
    | (fr1, evs1, Raise e) =>
        match handler e fr1 (h ++ evs1)%list with
        | (fr2, evs2, r) => (fr2, (evs1 ++ evs2)%list, r)
        end
    | done => done
    end.

(** [try: c finally: cleanup]: the cleanup runs on every exit of [c]; an
    exception of the cleanup replaces the outcome of [c]. *)
Definition try_finally {A} (c : M A) (cleanup : M unit) : M A :=
  fun fr h =>
    match c fr h with
    | (fr1, evs1, r) =>
        match cleanup fr1 (h ++ evs1)%list with
        | (fr2, evs2, Ok _) => (fr2, (evs1 ++ evs2)%list, r)
        | (fr2, evs2, Raise e) => (fr2, (evs1 ++ evs2)%list, Raise e)
        end
    end.

Definition events {A} (x : frame * list event * result A) : list event :=
  snd (fst x).

Definition outcome {A} (x : frame * list event * result A) : result A :=
  snd x.

(** ** The program: [class PhaseStakingClient] and [main] *)

Record PhaseStakingClient := {
  api_key : string;
  base_url : string;
  session : option ClientSession
}.

(** [__init__]. *)
Definition init (api_key : string) (base_url : string) : PhaseStakingClient :=
  {| api_key := api_key;
     base_url := rstrip "/"%char base_url;
     session := None |}.

Definition default_base_url : string := "https://staking-api.phase.com".

Definition not_initialized : exn :=
  RuntimeError "Client not initialized. Use 'async with' context manager.".

(** [d[k1][k2]]. *)
Definition getitem2 (d : value) (k1 k2 : string) : result value :=
  match getitem d k1 with
  | Ok v => getitem v k2
  | Raise e => Raise e
  end.

(** The request body of [build_stake_transaction]. *)
Definition build_payload (agent_wallet : PublicKey) (stake_amount : float)
    (validator_vote_account : option PublicKey) : dict :=
  let payload := [("agentWallet", JStr (base58 agent_wallet));
                  ("stakeAmount", JFloat stake_amount)] in
  match validator_vote_account with
  | Some v => dict_set payload "validatorVoteAccount" (JStr (base58 v))
  | None => payload
  end.

Definition build_headers (self : PhaseStakingClient) : list (string * string) :=
  [("Content-Type", "application/json");
   ("Authorization", ("Bearer " ++ api_key self)%string)].

(** [self.session = s]. *)
Definition set_session (self : PhaseStakingClient) (s : ClientSession)
    : PhaseStakingClient :=
  {| api_key := api_key self; base_url := base_url self; session := Some s |}.

Section Program.

Variable w : world.

(** [__aenter__]: returns the client with its session set. *)
Definition aenter (self : PhaseStakingClient) : M PhaseStakingClient :=
  s <- call (new_session w) ENewSession ;;
  ret (set_session self s).

(** [__aexit__]: returns [None], so an exception of the block goes on. *)
Definition aexit (self : PhaseStakingClient) : M unit :=
  match session self with
  | Some s => call (fun h => session_close w h s) (ECloseSession s)
  | None => ret tt
  end.

(** [async with client as c: block c]. *)
Definition async_with {A} (client : PhaseStakingClient)
    (block : PhaseStakingClient -> M A) : M A :=
  c <- aenter client ;;
  try_finally (block c) (aexit c).

Definition build_stake_transaction (self : PhaseStakingClient)
    (agent_wallet : PublicKey) (stake_amount : float)
    (validator_vote_account : option PublicKey) : M value :=
  match session self with
  | None => raise not_initialized
  | Some s =>
      let endpoint := (base_url self ++ "/stake/build")%string in
      let payload := build_payload agent_wallet stake_amount validator_vote_account in
      let headers := build_headers self in
      response <- call (fun h => session_post w h s endpoint (JObj payload) headers)
                       (EPost s endpoint (JObj payload) headers) ;;
      result <- lift (json response) ;;
      if negb (ok response) then
        error <- lift (get result "error" (JObj [])) ;;
        error_msg <- lift (get error "message" (JStr "Unknown API error")) ;;
        raise (Exception_ ("API Error: " ++ str (repr_other w) error_msg)%string)
      else
        lift (getitem result "data")
  end.

(** Steps 2 to 5 of [execute_staking]: what the [try] block does once the
    build has returned [transaction_data]. *)
Definition sign_and_submit (solana_client : AsyncClient) (agent_keypair : Keypair)
    (transaction_data : value) : M value :=
  print Built ;;
  stake_account <- lift (getitem2 transaction_data "metadata" "stakeAccount") ;;
  print (StakeAccountLine stake_account) ;;
  validator <- lift (getitem2 transaction_data "metadata" "validator") ;;
  print (ValidatorLine validator) ;;
  estimated_apy <- lift (getitem2 transaction_data "metadata" "estimatedApy") ;;
  print (ApyLine estimated_apy) ;;
  fees <- lift (getitem2 transaction_data "metadata" "fees") ;;
  transaction_fee <- lift (getitem fees "transactionFee") ;;
  rake_fee <- lift (getitem fees "rakeFee") ;;
  total_fees <- lift (add transaction_fee rake_fee) ;;
  print (TotalFeesLine total_fees) ;;
  serialized_tx <- lift (getitem2 transaction_data "transaction" "serialized") ;;
  transaction_bytes <- lift (b64decode w serialized_tx) ;;
  transaction <- lift (deserialize w transaction_bytes) ;;
  transaction <- call (fun _ => sign w transaction agent_keypair)
                      (ESign transaction agent_keypair) ;;
  print SignedLine ;;
  response <- call (fun h => send_transaction w h solana_client transaction)
                   (ESendTransaction solana_client transaction) ;;
  signature <- lift (getitem response "result") ;;
  call (fun h => confirm_transaction w h solana_client signature)
       (EConfirmTransaction solana_client signature) ;;
  print SuccessLine ;;
  print (TxLink signature) ;;
  stake_account <- lift (getitem2 transaction_data "metadata" "stakeAccount") ;;
  print (StakeLink stake_account) ;;
  stake_account <- lift (getitem2 transaction_data "metadata" "stakeAccount") ;;
  validator <- lift (getitem2 transaction_data "metadata" "validator") ;;
  estimated_apy <- lift (getitem2 transaction_data "metadata" "estimatedApy") ;;
  ret (JObj [("signature", signature);
             ("stake_account", stake_account);
             ("validator", validator);
             ("estimated_apy", estimated_apy)]).

(** The [try] block of [execute_staking]. *)
Definition execute_staking_try (self : PhaseStakingClient)
    (solana_client : AsyncClient) (agent_keypair : Keypair)
    (stake_amount : float) (validator_vote_account : option PublicKey) : M value :=
  transaction_data <- build_stake_transaction self (public_key agent_keypair)
                        stake_amount validator_vote_account ;;
  sign_and_submit solana_client agent_keypair transaction_data.

Definition execute_staking (self : PhaseStakingClient)
    (solana_client : AsyncClient) (agent_keypair : Keypair)
    (stake_amount : float) (validator_vote_account : option PublicKey) : M value :=
  print (Building stake_amount) ;;
  try_except
    (execute_staking_try self solana_client agent_keypair stake_amount
       validator_vote_account)
    (fun error => print (StakingFailed error) ;; raise error).

(** The condition of [check_health], with Python's short-circuit [and]:
    what is right of a false operand is not evaluated, so it cannot raise. *)
Definition health_condition (response : ClientResponse) (body : value) : result bool :=
  if negb (ok response) then Ok false
  else
    match get body "success" JNull with
    | Raise e => Raise e
    | Ok success =>
        if negb (truthy success) then Ok false
        else
          match get body "data" (JObj []) with
          | Raise e => Raise e
          | Ok data =>
              match get data "status" JNull with
              | Raise e => Raise e
              | Ok st => Ok (eq_str st "healthy")
              end
          end
    end.

Definition check_health (self : PhaseStakingClient) : M bool :=
  match session self with
  | None => raise not_initialized
  | Some s =>
      let url := (base_url self ++ "/health")%string in
      response <- call (fun h => session_get w h s url) (EGet s url) ;;
      result <- lift (json response) ;;
      healthy <- lift (health_condition response result) ;;
      if healthy then
        data <- lift (getitem result "data") ;;
        checks <- lift (getitem data "checks") ;;
        solana <- lift (getitem checks "solana") ;;
        latency <- lift (getitem solana "latency") ;;
        print (Healthy latency) ;;
        ret true
      else
        print Unhealthy ;;
        ret false
  end.

(** [not s] for what [os.getenv] returned. *)
Definition unset (s : option string) : bool :=
  match s with
  | None => true
  | Some v => String.eqb v ""
  end.

Definition default_rpc_url : string := "https://api.mainnet-beta.solana.com".

Definition lamports_per_sol : Z := 1000000000.

Definition minimum_balance : float := 1.1%float.

Definition set_solana_client (c : AsyncClient) : M unit :=
  fun _ _ => ({| solana_client := Some c |}, [], Ok tt).

(** The [finally] block of [main]: [await solana_client.close()], where the
    variable is unbound if the block raised before assigning it. *)
Definition close_solana_client : M unit :=
  fun fr h =>
    match solana_client fr with
    | Some c => call (fun h => rpc_close w h c) (ECloseRpc c) fr h
    | None => raise (UnboundLocalError "solana_client") fr h
    end.

(** The block of the [async with] statement of [main]. *)
Definition main_block (rpc_url agent_private_key : string)
    (phase_client : PhaseStakingClient) : M unit :=
  let solana_client := {| endpoint := rpc_url; commitment := Confirmed |} in
  set_solana_client solana_client ;;
  secret <- lift (b64decode w (JStr agent_private_key)) ;;
  agent_keypair <- lift (from_secret_key w secret) ;;
  check_health phase_client ;;
  balance_response <- call (fun h => get_balance w h solana_client (public_key agent_keypair))
                           (EGetBalance solana_client (public_key agent_keypair)) ;;
  balance_lamports <- lift (getitem2 balance_response "result" "value") ;;
  balance_sol <- lift (truediv_int balance_lamports lamports_per_sol) ;;
  print (BalanceLine balance_sol) ;;
  if PrimFloat.ltb balance_sol minimum_balance then
    print (Insufficient balance_sol)
  else
    let stake_amount := 1.0%float in
    result <- execute_staking phase_client solana_client agent_keypair stake_amount None ;;
    print CompleteLine ;;
    print (Dump result).

Definition main : M unit :=
  let api_key := getenv w "PHASE_API_KEY" in
  let rpc_url := match getenv w "SOLANA_RPC_URL" with
                 | Some u => u
                 | None => default_rpc_url
                 end in
  let agent_private_key := getenv w "AGENT_PRIVATE_KEY" in
  match api_key, agent_private_key with
  | Some key, Some private_key =>
      if unset api_key || unset agent_private_key then print MissingEnv
      else
        try_finally
          (try_except
             (async_with (init key default_base_url) (main_block rpc_url private_key))
             (fun error => print (ErrorLine error) ;; raise error))
          close_solana_client
  | _, _ => print MissingEnv
  end.

End Program.

(** A run from the start: nothing has happened and no local is bound. *)
Definition run {A} (c : M A) : frame * list event * result A :=
  c {| solana_client := None |} [].

(** ** Scenarios

    Concrete worlds on which the program is run below. *)

Definition build_body : value :=
  JObj [("success", JBool true);
        ("data",
         JObj [("transaction", JObj [("serialized", JStr "AQID")]);
               ("metadata",
                JObj [("stakeAccount", JStr "Stake111");
                      ("validator", JStr "Vote111");
                      ("estimatedApy", JFloat 7.5);
                      ("fees", JObj [("transactionFee", JInt 5000);
                                     ("rakeFee", JInt 1000)])])])].

Definition health_body : value :=
  JObj [("success", JBool true);
        ("data",
         JObj [("status", JStr "healthy");
               ("checks", JObj [("solana", JObj [("latency", JInt 42)])])])].

Definition rate_limited_body : value :=
  JObj [("error", JObj [("message", JStr "rate limited")])].

Definition agent : Keypair :=
  {| public_key := {| base58 := "Agent111" |}; secret_key := [] |}.

Definition mainnet : AsyncClient :=
  {| endpoint := default_rpc_url; commitment := Confirmed |}.

Definition session0 : ClientSession := {| session_id := 0 |}.

(** A world whose wallet holds [lamports], whose health endpoint answers
    [health] and whose build endpoint answers [build]; every other call
    succeeds. *)
Definition scenario (lamports : Z) (health build : result ClientResponse) : world :=
  {| getenv := fun k =>
       if String.eqb k "PHASE_API_KEY" then Some "key"
       else if String.eqb k "AGENT_PRIVATE_KEY" then Some "c2VjcmV0"
       else None;
     new_session := fun _ => Ok session0;
     session_close := fun _ _ => Ok tt;
     session_post := fun _ _ _ _ _ => build;
     session_get := fun _ _ _ => health;
     b64decode := fun _ => Ok [];
     from_secret_key := fun _ => Ok agent;
     deserialize := fun b => Ok {| message := b; signatures := [] |};
     sign := fun t k => Ok {| message := message t; signatures := [secret_key k] |};
     get_balance := fun _ _ _ =>
       Ok (JObj [("result", JObj [("value", JInt lamports)])]);
     send_transaction := fun _ _ _ => Ok (JObj [("result", JStr "Sig111")]);
     confirm_transaction := fun _ _ _ => Ok JNull;
     rpc_close := fun _ _ => Ok tt;
     repr_other := fun _ => "" |}.

Definition answer (status : Z) (body : value) : result ClientResponse :=
  Ok {| status := status; json := Ok body |}.

Definition happy (lamports : Z) : world :=
  scenario lamports (answer 200 health_body) (answer 200 build_body).

(** A client inside its [async with] block, and one outside of it. *)
Definition entered : PhaseStakingClient :=
  {| api_key := "key"; base_url := default_base_url; session := Some session0 |}.

Definition fresh : PhaseStakingClient := init "key" default_base_url.

Definition no_frame : frame := {| solana_client := None |}.

(** ** Notions used in the statements *)

(** What the health endpoint must answer for [check_health] to call the
    service healthy: a status below 400, a JSON object whose [success] is
    true in Python's sense and whose [data] object has [status] equal to
    the string [healthy]. *)
Definition reports_healthy (response : ClientResponse) (body : value) : Prop :=
  ok response = true /\
  exists (d : dict) (success : value) (data : dict),
    body = JObj d
    /\ dict_lookup d "success" = Some success
    /\ truthy success = true
    /\ dict_lookup d "data" = Some (JObj data)
    /\ dict_lookup data "status" = Some (JStr "healthy").

(** What the health endpoint must answer for [check_health] to return
    [False]: a status of 400 or more; or a JSON object whose [success] is
    absent or false in Python's sense; or one whose [success] is true while
    [data] is absent, or is an object whose [status] is not the string
    [healthy]. *)
Definition reports_unhealthy (response : ClientResponse) (body : value) : Prop :=
  ok response = false
  \/ exists d : dict,
       body = JObj d
       /\ (dict_lookup d "success" = None
           \/ (exists success : value,
                  dict_lookup d "success" = Some success
                  /\ truthy success = false)
           \/ (exists success : value,
                  dict_lookup d "success" = Some success
                  /\ truthy success = true
                  /\ (dict_lookup d "data" = None
                      \/ exists data : dict,
                           dict_lookup d "data" = Some (JObj data)
                           /\ dict_lookup data "status" <> Some (JStr "healthy")))).

(** [result["data"]["checks"]["solana"]["latency"]]. *)
Definition latency_of (body : value) : result value :=
  match getitem2 body "data" "checks" with
  | Ok checks => getitem2 checks "solana" "latency"
  | Raise e => Raise e
  end.

(** Kinds of events. *)
Definition is_post (ev : event) : bool :=
  match ev with EPost _ _ _ _ _ => true | _ => false end.

Definition is_sign (ev : event) : bool :=
  match ev with ESign _ _ _ => true | _ => false end.

Definition is_send (ev : event) : bool :=
  match ev with ESendTransaction _ _ _ => true | _ => false end.

Definition is_confirm (ev : event) : bool :=
  match ev with EConfirmTransaction _ _ _ => true | _ => false end.


(** Events on the HTTP session: its creation, its use, its closing. *)
Definition is_session_event (ev : event) : bool :=
  match ev with
  | ENewSession _ | ECloseSession _ _ | EPost _ _ _ _ _ | EGet _ _ _ => true
  | _ => false
  end.

(** The two ends of the life of a session. *)
Definition is_session_end (ev : event) : bool :=
  match ev with
  | ENewSession _ | ECloseSession _ _ => true
  | _ => false
  end.

(** The exception a call ended with, if it did. *)
Definition failure_of (ev : event) : option exn :=
  match ev with
  | ENewSession (Raise e) | ECloseSession _ (Raise e) | EPost _ _ _ _ (Raise e)
  | EGet _ _ (Raise e) | EGetBalance _ _ (Raise e) | ESign _ _ (Raise e)
  | ESendTransaction _ _ (Raise e) | EConfirmTransaction _ _ (Raise e)
  | ECloseRpc _ (Raise e) => Some e
  | _ => None
  end.

(** How many events of a kind a run has. *)
Definition count (kind : event -> bool) (evs : list event) : nat :=
  length (filter kind evs).

(** Case analysis on the next call of a run. *)
Ltac next_case :=
  match goal with
  | |- context [match ?x with Ok _ => _ | Raise _ => _ end] =>
      lazymatch x with
      | context [match _ with _ => _ end] => fail
      | _ => destruct x eqn:?
      end
  | |- context [if ?b then _ else _] =>
      lazymatch b with
      | context [match _ with _ => _ end] => fail
      | _ => destruct b eqn:?
      end
  end.

Ltac run_all :=
  cbv beta iota zeta delta [bind call lift print ret raise try_except try_finally
                            events outcome fst snd];
  repeat (next_case;
          cbv beta iota zeta delta [bind call lift print ret raise try_except
                                    try_finally events outcome fst snd]).

(** What [main] does on its way out: it closes the session and the RPC
    client, and prints the error line if something was raised. *)
Definition is_close (ev : event) : bool :=
  match ev with
  | ECloseSession _ _ | ECloseRpc _ _ => true
  | _ => false
  end.

Definition is_cleanup (ev : event) : bool :=
  match ev with
  | ECloseSession _ _ | ECloseRpc _ _ | EPrint (ErrorLine _) => true
  | _ => false
  end.

(** Case analysis on a hypothesis [In ev evs] for a list [evs] made of
    known events and of appended parts. *)
Ltac in_cases H :=
  repeat match type of H with
         | _ \/ _ => destruct H as [H|H]; [try discriminate H | ]
         | False => destruct H
         | In _ (_ ++ _) => apply in_app_or in H; destruct H as [H|H]
         | In _ (_ :: _) => destruct H as [H|H]; [try discriminate H | ]
         | In _ [] => destruct H
         end.

(** The events [execute_staking] can cause: the build request, the three
    submission steps, and its own progress lines. *)
Definition is_staking_event (ev : event) : bool :=
  match ev with
  | EPost _ _ _ _ _ | ESign _ _ _ | ESendTransaction _ _ _
  | EConfirmTransaction _ _ _ => true
  | EPrint (Building _) | EPrint Built | EPrint (StakeAccountLine _)
  | EPrint (ValidatorLine _) | EPrint (ApyLine _) | EPrint (TotalFeesLine _)
  | EPrint SignedLine | EPrint SuccessLine | EPrint (TxLink _)
  | EPrint (StakeLink _) | EPrint (StakingFailed _) => true
  | _ => false
  end.

(** Case analysis on a run of [main], [execute_staking] left folded. *)
Ltac main_cases :=
  cbv beta iota zeta delta [bind call lift print ret raise events outcome fst snd
                            try_finally try_except async_with aenter aexit
                            set_solana_client close_solana_client
                            session set_session init solana_client];
  repeat (next_case;
          cbv beta iota zeta delta [bind call lift print ret raise events outcome
                                    fst snd try_finally try_except async_with
                                    aenter aexit set_solana_client
                                    close_solana_client
                                    session set_session init solana_client]).

(** Two answers to the same question are the same answer. *)
Ltac same_answers :=
  repeat match goal with
         | H : ?t = Ok _, H' : ?t = _ |- _ => rewrite H in H'
         | H : Ok _ = Ok _ |- _ => injection H as H; subst
         | H : Ok _ = Raise _ |- _ => discriminate H
         | H : Raise _ = Ok _ |- _ => discriminate H
         | H : true = false |- _ => discriminate H
         | H : false = true |- _ => discriminate H
         | H : ?t = true, H' : ?t = false |- _ => rewrite H in H'; discriminate H'
         end.

(** Among the (at most three) events of a cleanup, find the one that failed. *)
Ltac failing_event_at post :=
  first [ exfalso; assert (Hc := post _ (or_introl eq_refl)); discriminate Hc
        | exfalso; assert (Hc := post _ (or_intror (or_introl eq_refl)));
          discriminate Hc
        | exfalso; assert (Hc := post _ (or_intror (or_intror (or_introl eq_refl))));
          discriminate Hc ].

Ltac find_failing_event :=
  first [ eexists; split; [left; reflexivity | split; reflexivity]
        | eexists; split; [right; left; reflexivity | split; reflexivity]
        | eexists; split; [right; right; left; reflexivity | split; reflexivity] ].

(** ** Notions used in the further properties *)

(** The string made of [n] slashes. *)
Fixpoint slashes (n : nat) : string :=
  match n with
  | O => EmptyString
  | S n' => String "/"%char (slashes n')
  end.

(** All the ways to cut a list around one of its elements, first to last. *)
Fixpoint splits {A} (l : list A) : list (list A * A * list A) :=
  match l with
  | [] => []
  | x :: t =>
      ([], x, t) :: map (fun s => match s with (p, e, q) => (x :: p, e, q) end)
                        (splits t)
  end.

(** The RPC endpoint [main] reads from its environment. *)
Definition configured_rpc_url (w : world) : string :=
  match getenv w "SOLANA_RPC_URL" with
  | Some u => u
  | None => default_rpc_url
  end.

(** Whether [main] finds its two mandatory settings. *)
Definition configured (w : world) : bool :=
  negb (unset (getenv w "PHASE_API_KEY") || unset (getenv w "AGENT_PRIVATE_KEY")).

(** Case analysis on a run of [execute_staking] or of one of its parts. *)
Ltac staking_cases :=
  unfold execute_staking, execute_staking_try, sign_and_submit,
    build_stake_transaction;
  match goal with
  | |- context [session ?self] => destruct (session self) eqn:?
  end;
  run_all.

(** Case analysis on where a known list of events was cut. *)
Ltac cut_cases H :=
  simpl in H;
  repeat match type of H with
         | _ \/ _ => destruct H as [H|H]; [try discriminate H | ]
         | False => destruct H
         end.

(** The RPC client and the HTTP session an event is a call on, if any. *)
Definition rpc_client_of (ev : event) : option AsyncClient :=
  match ev with
  | EGetBalance c _ _ | ESendTransaction c _ _ | EConfirmTransaction c _ _
  | ECloseRpc c _ => Some c
  | _ => None
  end.

Definition session_of (ev : event) : option ClientSession :=
  match ev with
  | ECloseSession s _ | EPost s _ _ _ _ | EGet s _ _ => Some s
  | _ => None
  end.

Definition is_close_rpc (ev : event) : bool :=
  match ev with ECloseRpc _ _ => true | _ => false end.

(** A world like [happy] in which no HTTP session can be created. *)
Definition offline : world :=
  {| getenv := getenv (happy 0);
     new_session := fun _ => Raise (External "ClientConnectorError");
     session_close := session_close (happy 0);
     session_post := session_post (happy 0);
     session_get := session_get (happy 0);
     b64decode := b64decode (happy 0);
     from_secret_key := from_secret_key (happy 0);
     deserialize := deserialize (happy 0);
     sign := sign (happy 0);
     get_balance := get_balance (happy 0);
     send_transaction := send_transaction (happy 0);
     confirm_transaction := confirm_transaction (happy 0);
     rpc_close := rpc_close (happy 0);
     repr_other := repr_other (happy 0) |}.

(** A world without any configuration. *)
Definition unconfigured : world :=
  {| getenv := fun _ => None;
     new_session := new_session (happy 0);
     session_close := session_close (happy 0);
     session_post := session_post (happy 0);
     session_get := session_get (happy 0);
     b64decode := b64decode (happy 0);
     from_secret_key := from_secret_key (happy 0);
     deserialize := deserialize (happy 0);
     sign := sign (happy 0);
     get_balance := get_balance (happy 0);
     send_transaction := send_transaction (happy 0);
     confirm_transaction := confirm_transaction (happy 0);
     rpc_close := rpc_close (happy 0);
     repr_other := repr_other (happy 0) |}.

(** Membership in a list of events that has an unknown part in it. *)
Ltac find_event :=
  simpl;
  first [ left; reflexivity
        | right; find_event
        | apply in_or_app; right; find_event
        | apply in_or_app; left; find_event ].

(** Unfold a run of [main] in a configured world down to its calls, with
    [execute_staking] left folded, then split on its result; [kinds] and
    [keeps] are the lemmas on the events and on the frame of that run, whose
    instances are left as [Hexec] and [Hframe], and [Hrun] is its result. *)
Ltac main_run_cases kinds keeps :=
  unfold main_block, check_health;
  main_cases;
  try match goal with
      | |- context [execute_staking ?w ?a ?b ?c ?d ?e ?f ?g] =>
          pose proof (kinds w a b c d e f g) as Hexec;
          pose proof (keeps w a b c d e f g) as Hframe;
          destruct (execute_staking w a b c d e f g) as [[? ?] [?|?]] eqn:Hrun;
          simpl in Hframe; subst;
          main_cases
      end.

(** Walk along a known list of events that was cut around an event [ev]:
    [cut] is the lemma that tells a list cut after its head from one cut
    at its head. *)
Ltac peel cut H :=
  repeat (apply cut in H;
          destruct H as [[? [H ?]]|[? [? H]]]; [try discriminate H; subst | subst]).

(** Nothing can be cut out of the empty list. *)
Ltac cut_end H :=
  match type of H with
  | [] = ?p ++ _ => destruct p; discriminate H
  end.

(** The three ways a run of [main] starts: a setting is missing, or both
    are there; [rpc_url] is then the endpoint it works with. *)
Ltac main_start w :=
  unfold run, main;
  destruct (getenv w "PHASE_API_KEY") as [key|] eqn:Hkey;
  [destruct (getenv w "AGENT_PRIVATE_KEY") as [private_key|] eqn:Hprivate;
   [destruct (unset (Some key) || unset (Some private_key)) eqn:Hunset;
    [|generalize (match getenv w "SOLANA_RPC_URL" with
                  | Some u => u
                  | None => default_rpc_url
                  end); intros rpc_url]
   |]
  |].

(** ** Printing that can fail

    [print] above is a [print] that succeeds.  In Python a [print] of an
    f-string can raise: converting an interpolated value to text can fail
    (an integer with too many digits), and writing the text can fail (a
    character that the encoding of the standard output lacks, as a lone
    surrogate in a string of a JSON answer).  Nothing is written then.  In
    [execute_staking] this matters, because its prints show what the server
    sent and one of them is in its [except] clause, and in [check_health],
    which shows the latency the server reports.

    The console is a function [unprintable] that gives, for a line, the
    exception that printing it raises, if any.  [execute_staking_io] and
    [check_health_io] are [execute_staking] and [check_health] on such a
    console; where every line can be printed they are [execute_staking] and
    [check_health] themselves ([execute_staking_io_printable] and
    [check_health_io_printable] below). *)

Section Console.

Variable w : world.
Variable unprintable : line -> option exn.

Definition print_io (l : line) : M unit :=
  fun fr _ =>
    match unprintable l with
    | Some e => (fr, [], Raise e)
    | None => (fr, [EPrint l], Ok tt)
    end.

Definition sign_and_submit_io (solana_client : AsyncClient) (agent_keypair : Keypair)
    (transaction_data : value) : M value :=
  print_io Built ;;
  stake_account <- lift (getitem2 transaction_data "metadata" "stakeAccount") ;;
  print_io (StakeAccountLine stake_account) ;;
  validator <- lift (getitem2 transaction_data "metadata" "validator") ;;
  print_io (ValidatorLine validator) ;;
  estimated_apy <- lift (getitem2 transaction_data "metadata" "estimatedApy") ;;
  print_io (ApyLine estimated_apy) ;;
  fees <- lift (getitem2 transaction_data "metadata" "fees") ;;
  transaction_fee <- lift (getitem fees "transactionFee") ;;
  rake_fee <- lift (getitem fees "rakeFee") ;;
  total_fees <- lift (add transaction_fee rake_fee) ;;
  print_io (TotalFeesLine total_fees) ;;
  serialized_tx <- lift (getitem2 transaction_data "transaction" "serialized") ;;
  transaction_bytes <- lift (b64decode w serialized_tx) ;;
  transaction <- lift (deserialize w transaction_bytes) ;;
  transaction <- call (fun _ => sign w transaction agent_keypair)
                      (ESign transaction agent_keypair) ;;
  print_io SignedLine ;;
  response <- call (fun h => send_transaction w h solana_client transaction)
                   (ESendTransaction solana_client transaction) ;;
  signature <- lift (getitem response "result") ;;
  call (fun h => confirm_transaction w h solana_client signature)
       (EConfirmTransaction solana_client signature) ;;
  print_io SuccessLine ;;
  print_io (TxLink signature) ;;
  stake_account <- lift (getitem2 transaction_data "metadata" "stakeAccount") ;;
  print_io (StakeLink stake_account) ;;
  stake_account <- lift (getitem2 transaction_data "metadata" "stakeAccount") ;;
  validator <- lift (getitem2 transaction_data "metadata" "validator") ;;
  estimated_apy <- lift (getitem2 transaction_data "metadata" "estimatedApy") ;;
  ret (JObj [("signature", signature);
             ("stake_account", stake_account);
             ("validator", validator);
             ("estimated_apy", estimated_apy)]).

Definition execute_staking_try_io (self : PhaseStakingClient)
    (solana_client : AsyncClient) (agent_keypair : Keypair)
    (stake_amount : float) (validator_vote_account : option PublicKey) : M value :=
  transaction_data <- build_stake_transaction w self (public_key agent_keypair)
                        stake_amount validator_vote_account ;;
  sign_and_submit_io solana_client agent_keypair transaction_data.

Definition execute_staking_io (self : PhaseStakingClient)
    (solana_client : AsyncClient) (agent_keypair : Keypair)
    (stake_amount : float) (validator_vote_account : option PublicKey) : M value :=
  print_io (Building stake_amount) ;;
  try_except
    (execute_staking_try_io self solana_client agent_keypair stake_amount
       validator_vote_account)
    (fun error => print_io (StakingFailed error) ;; raise error).

Definition check_health_io (self : PhaseStakingClient) : M bool :=
  match session self with
  | None => raise not_initialized
  | Some s =>
      let url := (base_url self ++ "/health")%string in
      response <- call (fun h => session_get w h s url) (EGet s url) ;;
      result <- lift (json response) ;;
      healthy <- lift (health_condition response result) ;;
      if healthy then
        data <- lift (getitem result "data") ;;
        checks <- lift (getitem data "checks") ;;
        solana <- lift (getitem checks "solana") ;;
        latency <- lift (getitem solana "latency") ;;
        print_io (Healthy latency) ;;
        ret true
      else
        print_io Unhealthy ;;
        ret false
  end.

End Console.

(** A Python string is a sequence of code points and can hold a lone
    surrogate, which UTF-8 cannot encode.  In the bytes of a [string] here,
    a surrogate U+D800..U+DFFF shows as the byte 237 followed by a byte of
    160 or more (the generalized UTF-8 form). *)
Fixpoint has_surrogate (s : string) : bool :=
  match s with
  | EmptyString => false
  | String a t =>
      match t with
      | String b _ =>
          ((nat_of_ascii a =? 237)%nat && (160 <=? nat_of_ascii b)%nat)
          || has_surrogate t
      | EmptyString => false
      end
  end.

(** [str(e)] for the exceptions whose text is a message. *)
Definition message_of (e : exn) : string :=
  match e with
  | RuntimeError msg | Exception_ msg => msg
  | _ => ""
  end.

(** A standard output encoded in UTF-8: a line that shows a string with a
    lone surrogate raises [UnicodeEncodeError]; containers show their
    strings escaped, and everything else is plain text. *)
Definition utf8_console (l : line) : option exn :=
  let unencodable (text : string) : option exn :=
    if has_surrogate text then Some (External "UnicodeEncodeError") else None in
  match l with
  | StakeAccountLine (JStr s) | ValidatorLine (JStr s) | ApyLine (JStr s)
  | TotalFeesLine (JStr s) | TxLink (JStr s) | StakeLink (JStr s)
  | Healthy (JStr s) => unencodable s
  | StakingFailed e | ErrorLine e => unencodable (message_of e)
  | _ => None
  end.

(** The lone surrogate U+D83D, and the error body that carries it:
    [{"error": {"message": "\ud83d"}}]. *)
Definition lone_surrogate : string :=
  String (ascii_of_nat 237) (String (ascii_of_nat 160) (String (ascii_of_nat 189) "")).

Definition surrogate_body : value :=
  JObj [("error", JObj [("message", JStr lone_surrogate)])].

(** Case analysis on a run of [execute_staking_io]: on the answers of the
    collaborators and on the console. *)
Ltac next_case_io :=
  match goal with
  | |- context [match ?x with Ok _ => _ | Raise _ => _ end] =>
      lazymatch x with
      | context [match _ with _ => _ end] => fail
      | _ => destruct x eqn:?
      end
  | |- context [match ?x with Some _ => _ | None => _ end] =>
      lazymatch x with
      | context [match _ with _ => _ end] => fail
      | _ => destruct x eqn:?
      end
  | |- context [if ?b then _ else _] =>
      lazymatch b with
      | context [match _ with _ => _ end] => fail
      | _ => destruct b eqn:?
      end
  end.

Ltac io_cases :=
  unfold execute_staking_io, execute_staking_try_io, sign_and_submit_io,
    build_stake_transaction;
  cbv beta iota zeta delta [bind call lift print_io ret raise try_except
                            events outcome fst snd];
  repeat (next_case_io;
          cbv beta iota zeta delta [bind call lift print_io ret raise try_except
                                    events outcome fst snd]).

(** ** Properties *)

(** *** The precondition of the two API methods *)

(** C7: called before the session exists ([session] is [None], as
    [__init__] leaves it), [build_stake_transaction] raises the
    [RuntimeError] of the source, and causes no event at all: no request
    is sent. *)
Theorem build_stake_transaction_requires_session :
  forall (w : world) (self : PhaseStakingClient) (agent_wallet : PublicKey)
         (stake_amount : float) (validator : option PublicKey)
         (fr : frame) (h : history),
    session self = None ->
    build_stake_transaction w self agent_wallet stake_amount validator fr h
    = (fr, [], Raise not_initialized).
Proof.
  intros w self agent_wallet stake_amount validator fr h Hnone.
  unfold build_stake_transaction. rewrite Hnone. reflexivity.
Qed.

Lemma build_stake_transaction_requires_session_witness :
  session fresh = None /\
  build_stake_transaction (happy 0) fresh (public_key agent) 1.0%float None no_frame []
  = (no_frame, [], Raise not_initialized).
Proof.
  split.
  - reflexivity.
  - apply build_stake_transaction_requires_session. reflexivity.
Defined.

(** C10: called before the session exists, [check_health] raises the same
    [RuntimeError]; it does not return [False], and sends nothing. *)
Theorem check_health_requires_session :
  forall (w : world) (self : PhaseStakingClient) (fr : frame) (h : history),
    session self = None ->
    check_health w self fr h = (fr, [], Raise not_initialized)
    /\ outcome (check_health w self fr h) <> Ok false.
Proof.
  intros w self fr h Hnone.
  unfold check_health. rewrite Hnone. split.
  - reflexivity.
  - unfold outcome, raise. simpl. discriminate.
Qed.

Lemma check_health_requires_session_witness :
  session fresh = None /\
  check_health (happy 0) fresh no_frame [] = (no_frame, [], Raise not_initialized).
Proof.
  split.
  - reflexivity.
  - apply (check_health_requires_session (happy 0) fresh no_frame []). reflexivity.
Defined.

(** *** The build request *)

Lemma build_payload_keys :
  forall agent_wallet stake_amount validator,
    dict_keys (build_payload agent_wallet stake_amount validator)
    = ["agentWallet"; "stakeAmount"]
      ++ match validator with Some _ => ["validatorVoteAccount"] | None => [] end.
Proof. intros a m [v|]; reflexivity. Qed.

(** C8: with a session, [build_stake_transaction] sends exactly one
    request, a POST to [base_url ++ "/stake/build"], whose headers carry
    [Authorization: Bearer <api_key>] and whose JSON body binds
    [agentWallet] to the wallet's text and [stakeAmount] to the amount; the
    body has the key [validatorVoteAccount], bound to the validator's text,
    exactly when a validator is given. *)
Theorem build_stake_transaction_request :
  forall (w : world) (self : PhaseStakingClient) (s : ClientSession)
         (agent_wallet : PublicKey) (stake_amount : float)
         (validator : option PublicKey) (fr : frame) (h : history),
    session self = Some s ->
    exists (payload : dict) (headers : list (string * string)),
      events (build_stake_transaction w self agent_wallet stake_amount validator fr h)
      = [EPost s (base_url self ++ "/stake/build")%string (JObj payload) headers
           (session_post w h s (base_url self ++ "/stake/build")%string
              (JObj payload) headers)]
      /\ In ("Authorization", ("Bearer " ++ api_key self)%string) headers
      /\ In ("Content-Type", "application/json") headers
      /\ dict_lookup payload "agentWallet" = Some (JStr (base58 agent_wallet))
      /\ dict_lookup payload "stakeAmount" = Some (JFloat stake_amount)
      /\ dict_lookup payload "validatorVoteAccount"
         = option_map (fun v => JStr (base58 v)) validator
      /\ (In "validatorVoteAccount" (dict_keys payload) <-> validator <> None)
      /\ incl (dict_keys payload) ["agentWallet"; "stakeAmount"; "validatorVoteAccount"].
Proof.
  intros w self s agent_wallet stake_amount validator fr h Hs.
  exists (build_payload agent_wallet stake_amount validator), (build_headers self).
  split.
  - unfold build_stake_transaction. rewrite Hs.
    unfold bind, call, lift, raise, events.
    destruct (session_post w h s _ _ _) as [response|e]; [|reflexivity].
    destruct (json response) as [body|e]; [|reflexivity].
    destruct (negb (ok response)).
    + destruct (get body "error" (JObj [])) as [error|e]; [|reflexivity].
      destruct (get error "message" (JStr "Unknown API error")); reflexivity.
    + destruct (getitem body "data"); reflexivity.
  - repeat split.
    + simpl. auto.
    + simpl. auto.
    + destruct validator; reflexivity.
    + destruct validator; reflexivity.
    + destruct validator; reflexivity.
    + rewrite build_payload_keys. destruct validator; simpl.
      * discriminate.
      * intros [H|[H|[]]]; discriminate.
    + rewrite build_payload_keys. destruct validator; simpl; tauto.
    + rewrite build_payload_keys. intros k Hk.
      destruct validator; simpl in *; tauto.
Qed.

Lemma build_stake_transaction_request_witness :
  session entered = Some session0 /\
  exists (payload : dict) (headers : list (string * string)),
    events (build_stake_transaction (happy 0) entered (public_key agent) 1.0%float
              (Some {| base58 := "Vote111" |}) no_frame [])
    = [EPost session0 (base_url entered ++ "/stake/build")%string (JObj payload) headers
         (session_post (happy 0) [] session0 (base_url entered ++ "/stake/build")%string
            (JObj payload) headers)]
    /\ In ("Authorization", ("Bearer " ++ api_key entered)%string) headers
    /\ In ("Content-Type", "application/json") headers
    /\ dict_lookup payload "agentWallet" = Some (JStr (base58 (public_key agent)))
    /\ dict_lookup payload "stakeAmount" = Some (JFloat 1.0%float)
    /\ dict_lookup payload "validatorVoteAccount"
       = option_map (fun v => JStr (base58 v)) (Some {| base58 := "Vote111" |})
    /\ (In "validatorVoteAccount" (dict_keys payload)
        <-> Some {| base58 := "Vote111" |} <> None)
    /\ incl (dict_keys payload) ["agentWallet"; "stakeAmount"; "validatorVoteAccount"].
Proof.
  split.
  - reflexivity.
  - apply (build_stake_transaction_request (happy 0) entered session0).
    reflexivity.
Defined.

(** *** Errors of the build endpoint *)

(** C2, as the code has it: on a status of 400 or more with a JSON object
    as body, [build_stake_transaction] raises a plain [Exception] whose
    message is ["API Error: "] followed by the server's [error.message]
    (verbatim when it is a string), and ["API Error: Unknown API error"]
    when the body has no [error] or the [error] object has no [message]. *)
Theorem build_stake_transaction_api_error :
  forall (w : world) (self : PhaseStakingClient) (s : ClientSession)
         (agent_wallet : PublicKey) (stake_amount : float)
         (validator : option PublicKey) (fr : frame) (h : history)
         (response : ClientResponse) (body : dict),
    session self = Some s ->
    session_post w h s (base_url self ++ "/stake/build")%string
      (JObj (build_payload agent_wallet stake_amount validator))
      (build_headers self) = Ok response ->
    400 <= status response ->
    json response = Ok (JObj body) ->
    let raised :=
      outcome (build_stake_transaction w self agent_wallet stake_amount validator fr h) in
    (dict_lookup body "error" = None ->
     raised = Raise (Exception_ "API Error: Unknown API error"))
    /\ (forall error : dict,
          dict_lookup body "error" = Some (JObj error) ->
          dict_lookup error "message" = None ->
          raised = Raise (Exception_ "API Error: Unknown API error"))
    /\ (forall (error : dict) (m : string),
          dict_lookup body "error" = Some (JObj error) ->
          dict_lookup error "message" = Some (JStr m) ->
          raised = Raise (Exception_ ("API Error: " ++ m)%string)).
Proof.
  intros w self s agent_wallet stake_amount validator fr h response body
         Hs Hpost Hstatus Hjson raised.
  assert (Hok : negb (ok response) = true).
  { unfold ok. destruct (Z.ltb_spec (status response) 400); [lia | reflexivity]. }
  assert (Hrun : forall error_msg : value,
             (exists error, get (JObj body) "error" (JObj []) = Ok error
                            /\ get error "message" (JStr "Unknown API error")
                               = Ok error_msg) ->
             raised = Raise (Exception_
                               ("API Error: " ++ str (repr_other w) error_msg)%string)).
  { intros error_msg [error [Herr Hmsg]].
    unfold raised, build_stake_transaction. rewrite Hs.
    unfold bind, call, lift, raise, outcome.
    rewrite Hpost, Hjson, Hok, Herr, Hmsg. reflexivity. }
  repeat split.
  - intros Hnone. apply (Hrun (JStr "Unknown API error")).
    exists (JObj []). simpl. rewrite Hnone. split; reflexivity.
  - intros error Herr Hnone. apply (Hrun (JStr "Unknown API error")).
    exists (JObj error). simpl. rewrite Herr, Hnone. split; reflexivity.
  - intros error m Herr Hm. apply (Hrun (JStr m)).
    exists (JObj error). simpl. rewrite Herr, Hm. split; reflexivity.
Qed.

Lemma build_stake_transaction_api_error_witness :
  outcome (build_stake_transaction
             (scenario 0 (answer 200 health_body) (answer 400 rate_limited_body))
             entered (public_key agent) 1.0%float None no_frame [])
  = Raise (Exception_ "API Error: rate limited").
Proof.
  refine (proj2 (proj2
    (build_stake_transaction_api_error
       (scenario 0 (answer 200 health_body) (answer 400 rate_limited_body))
       entered session0 (public_key agent) 1.0%float None no_frame []
       {| status := 400; json := Ok rate_limited_body |}
       [("error", JObj [("message", JStr "rate limited")])]
       eq_refl eq_refl _ eq_refl))
    [("message", JStr "rate limited")] "rate limited" eq_refl eq_refl).
  simpl. lia.
Defined.

(** The message of the spec's scenario is not the server's text verbatim,
    and a body that is not JSON gives the decoder's exception instead. *)
Lemma build_stake_transaction_message_not_verbatim :
  outcome (build_stake_transaction
             (scenario 0 (answer 200 health_body) (answer 400 rate_limited_body))
             entered (public_key agent) 1.0%float None no_frame [])
  = Raise (Exception_ "API Error: rate limited")
  /\ Exception_ "API Error: rate limited" <> Exception_ "rate limited"
  /\ outcome (build_stake_transaction
                (scenario 0 (answer 200 health_body)
                   (Ok {| status := 502; json := Raise (External "ContentTypeError") |}))
                entered (public_key agent) 1.0%float None no_frame [])
     = Raise (External "ContentTypeError").
Proof.
  split; [reflexivity | split; [discriminate | reflexivity]].
Qed.

(** *** The health check *)

Lemma health_condition_true :
  forall (response : ClientResponse) (body : value),
    health_condition response body = Ok true <-> reports_healthy response body.
Proof.
  intros response body. unfold health_condition, reports_healthy. split.
  - destruct (ok response) eqn:Hok; simpl; [|discriminate].
    destruct body as [| | | | | |d]; simpl; try discriminate.
    destruct (dict_lookup d "success") as [success|] eqn:Hsuccess; simpl;
      [|discriminate].
    destruct (truthy success) eqn:Htruthy; simpl; [|discriminate].
    destruct (dict_lookup d "data") as [data|] eqn:Hdata; simpl.
    + destruct data as [| | | | | |data]; simpl; try discriminate.
      destruct (dict_lookup data "status") as [st|] eqn:Hst; simpl;
        [|discriminate].
      destruct st as [| | | |x| |]; simpl; try discriminate.
      intros Heq. injection Heq as Heq. apply String.eqb_eq in Heq. subst x.
      split; [reflexivity|]. exists d, success, data. auto.
    + discriminate.
  - intros [Hok [d [success [data [Hbody [Hsuccess [Htruthy [Hdata Hst]]]]]]]].
    subst body. rewrite Hok. simpl.
    rewrite Hsuccess, Htruthy. simpl. rewrite Hdata. simpl. rewrite Hst.
    reflexivity.
Qed.

Lemma health_condition_false :
  forall (response : ClientResponse) (body : value),
    health_condition response body = Ok false <-> reports_unhealthy response body.
Proof.
  intros response body. unfold health_condition, reports_unhealthy. split.
  - destruct (ok response) eqn:Hok; simpl; [|intros _; left; reflexivity].
    destruct body as [| | | | | |d]; simpl; try discriminate.
    intros H. right. exists d. split; [reflexivity|].
    destruct (dict_lookup d "success") as [success|] eqn:Hsuccess; simpl in H;
      [|left; reflexivity].
    right. destruct (truthy success) eqn:Htruthy; simpl in H.
    + right. exists success. split; [reflexivity|]. split; [exact Htruthy|].
      destruct (dict_lookup d "data") as [data|] eqn:Hdata; simpl in H;
        [|left; reflexivity].
      right. destruct data as [| | | | | |data]; simpl in H; try discriminate.
      exists data. split; [reflexivity|].
      destruct (dict_lookup data "status") as [st|] eqn:Hst; simpl in H;
        [|discriminate].
      intros Heq. injection Heq as Heq. subst st. simpl in H. discriminate.
    + left. exists success. auto.
  - intros [Hok|[d [Hbody Hcases]]].
    + rewrite Hok. reflexivity.
    + subst body. destruct (ok response); [|reflexivity]. simpl.
      destruct Hcases as [Hnone|[[success [Hsuccess Hfalsy]]
                                |[success [Hsuccess [Htruthy Hdata]]]]].
      * rewrite Hnone. reflexivity.
      * rewrite Hsuccess, Hfalsy. reflexivity.
      * rewrite Hsuccess, Htruthy. simpl.
        destruct Hdata as [Hnone|[data [Hdata Hstatus]]].
        -- rewrite Hnone. reflexivity.
        -- rewrite Hdata. simpl.
           destruct (dict_lookup data "status") as [st|]; [|reflexivity].
           simpl. destruct st as [| | | |x| |]; try reflexivity.
           simpl. destruct (String.eqb_spec x "healthy") as [Heq|Hneq];
             [subst x; destruct (Hstatus eq_refl) | reflexivity].
Qed.

Lemma check_health_io_printable :
  forall (w : world) (self : PhaseStakingClient) (fr : frame) (h : history),
    check_health_io w (fun _ => None) self fr h = check_health w self fr h.
Proof. reflexivity. Qed.

Lemma check_health_io_run :
  forall (w : world) (unprintable : line -> option exn)
         (self : PhaseStakingClient) (s : ClientSession)
         (fr : frame) (h : history) (response : ClientResponse) (body : value),
    session self = Some s ->
    session_get w h s (base_url self ++ "/health")%string = Ok response ->
    json response = Ok body ->
    outcome (check_health_io w unprintable self fr h)
    = match health_condition response body with
      | Ok true =>
          match latency_of body with
          | Ok latency =>
              match unprintable (Healthy latency) with
              | None => Ok true
              | Some e => Raise e
              end
          | Raise e => Raise e
          end
      | Ok false =>
          match unprintable Unhealthy with
          | None => Ok false
          | Some e => Raise e
          end
      | Raise e => Raise e
      end.
Proof.
  intros w unprintable self s fr h response body Hs Hget Hjson.
  unfold check_health_io. rewrite Hs.
  unfold bind, call, lift, print_io, ret, outcome. rewrite Hget, Hjson.
  destruct (health_condition response body) as [[|]|e]; try reflexivity.
  - unfold latency_of, getitem2.
    destruct (getitem body "data") as [data|e]; [|reflexivity].
    destruct (getitem data "checks") as [checks|e]; [|reflexivity].
    destruct (getitem checks "solana") as [solana|e]; [|reflexivity].
    destruct (getitem solana "latency") as [latency|e]; [|reflexivity].
    destruct (unprintable (Healthy latency)); reflexivity.
  - destruct (unprintable Unhealthy); reflexivity.
Qed.

(** C3, as the code has it.  With a session: a failure of the request, or
    of the decoding of its body, is raised to the caller as it is and not
    turned into [False].  When the body is decoded: whenever [check_health]
    returns a value, that value is [True] exactly when the status is below
    400, [success] is true and [data.status] is the string [healthy]; it
    returns [True] exactly when, besides, the body has
    [data.checks.solana.latency] and the healthy line, which shows it, can
    be printed; and it returns [False] exactly when the unhealthy line can
    be printed and the status is 400 or more, or the body is an object
    whose [success] is absent or false, or whose [success] is true while
    [data] is absent or is an object whose [status] is not [healthy]. *)
Theorem check_health_returns :
  forall (w : world) (unprintable : line -> option exn)
         (self : PhaseStakingClient) (s : ClientSession)
         (fr : frame) (h : history),
    session self = Some s ->
    let run := check_health_io w unprintable self fr h in
    match session_get w h s (base_url self ++ "/health")%string with
    | Raise e => outcome run = Raise e
    | Ok response =>
        match json response with
        | Raise e => outcome run = Raise e
        | Ok body =>
            (forall b : bool,
                outcome run = Ok b -> (b = true <-> reports_healthy response body))
            /\ (reports_healthy response body ->
                forall latency : value, latency_of body = Ok latency ->
                unprintable (Healthy latency) = None ->
                outcome run = Ok true)
            /\ (ok response = false -> unprintable Unhealthy = None ->
                outcome run = Ok false)
            /\ (outcome run = Ok false <->
                reports_unhealthy response body /\ unprintable Unhealthy = None)
            /\ (outcome run = Ok true <->
                reports_healthy response body
                /\ exists latency : value,
                     latency_of body = Ok latency
                     /\ unprintable (Healthy latency) = None)
        end
    end.
Proof.
  intros w unprintable self s fr h Hs run.
  destruct (session_get w h s _) as [response|e] eqn:Hget.
  - destruct (json response) as [body|e] eqn:Hjson.
    + pose proof (check_health_io_run w unprintable self s fr h response body
                    Hs Hget Hjson) as Hrun.
      fold run in Hrun. rewrite Hrun.
      pose proof (health_condition_true response body) as Htrue.
      pose proof (health_condition_false response body) as Hfalse.
      destruct (health_condition response body) as [[|]|e] eqn:Hcond.
      * assert (Hrep : reports_healthy response body) by (apply Htrue; reflexivity).
        assert (Hnot : ~ reports_unhealthy response body).
        { intros H. apply Hfalse in H. discriminate. }
        split; [|split; [|split; [|split]]].
        -- intros b Hb. split; [intros _; exact Hrep | intros _].
           destruct (latency_of body) as [latency|]; [|discriminate].
           destruct (unprintable (Healthy latency)); [discriminate | congruence].
        -- intros _ latency Hlat Hprint. rewrite Hlat, Hprint. reflexivity.
        -- intros Hok. destruct Hrep as [Hok' _]. congruence.
        -- split; [|intros [H _]; destruct (Hnot H)].
           destruct (latency_of body) as [latency|]; [|discriminate].
           destruct (unprintable (Healthy latency)); discriminate.
        -- split.
           ++ intros H. split; [exact Hrep|].
              destruct (latency_of body) as [latency|]; [|discriminate].
              exists latency. split; [reflexivity|].
              destruct (unprintable (Healthy latency)); [discriminate | reflexivity].
           ++ intros [_ [latency [Hlat Hprint]]]. rewrite Hlat, Hprint. reflexivity.
      * assert (Hrep : ~ reports_healthy response body).
        { intros Hrep. apply Htrue in Hrep. discriminate. }
        assert (Hun : reports_unhealthy response body) by (apply Hfalse; reflexivity).
        split; [|split; [|split; [|split]]].
        -- intros b Hb. destruct (unprintable Unhealthy); [discriminate|].
           injection Hb as Hb. subst b.
           split; [discriminate | intros H; destruct (Hrep H)].
        -- intros H. destruct (Hrep H).
        -- intros _ Hprint. rewrite Hprint. reflexivity.
        -- split.
           ++ intros H. split; [exact Hun|].
              destruct (unprintable Unhealthy); [discriminate | reflexivity].
           ++ intros [_ Hprint]. rewrite Hprint. reflexivity.
        -- split; [|intros [H _]; destruct (Hrep H)].
           destruct (unprintable Unhealthy); discriminate.
      * assert (Hrep : ~ reports_healthy response body).
        { intros Hrep. apply Htrue in Hrep. discriminate. }
        assert (Hnot : ~ reports_unhealthy response body).
        { intros H. apply Hfalse in H. discriminate. }
        split; [|split; [|split; [|split]]].
        -- intros b Hb. discriminate.
        -- intros H. destruct (Hrep H).
        -- intros Hok. unfold health_condition in Hcond. rewrite Hok in Hcond.
           simpl in Hcond. discriminate.
        -- split; [discriminate | intros [H _]; destruct (Hnot H)].
        -- split; [discriminate | intros [H _]; destruct (Hrep H)].
    + unfold run, check_health_io. rewrite Hs.
      unfold bind, call, lift, outcome. rewrite Hget, Hjson. reflexivity.
  - unfold run, check_health_io. rewrite Hs.
    unfold bind, call, outcome. rewrite Hget. reflexivity.
Qed.

Lemma check_health_returns_witness :
  session entered = Some session0
  /\ outcome (check_health (happy 0) entered no_frame []) = Ok true.
Proof.
  split; [reflexivity|].
  pose proof (check_health_returns (happy 0) (fun _ => None) entered session0
                no_frame [] eq_refl) as H.
  simpl in H. destruct H as [_ [H _]].
  apply (H (conj eq_refl
              (ex_intro _ _ (ex_intro _ (JBool true) (ex_intro _ _
                 (conj eq_refl (conj eq_refl (conj eq_refl
                    (conj eq_refl eq_refl))))))))
           (JInt 42) eq_refl eq_refl).
Defined.

(** A transport failure and an undecodable body both come out of
    [check_health] as exceptions, where the spec promises [False]; so does a
    healthy answer that lacks the latency the source prints, and one whose
    latency cannot be printed. *)
Lemma check_health_can_raise :
  outcome (check_health
             (scenario 0 (Raise (External "ClientConnectorError")) (answer 200 build_body))
             entered no_frame [])
  = Raise (External "ClientConnectorError")
  /\ outcome (check_health
                (scenario 0
                   (Ok {| status := 200; json := Raise (External "ContentTypeError") |})
                   (answer 200 build_body))
                entered no_frame [])
     = Raise (External "ContentTypeError")
  /\ outcome (check_health
                (scenario 0
                   (answer 200 (JObj [("success", JBool true);
                                      ("data", JObj [("status", JStr "healthy")])]))
                   (answer 200 build_body))
                entered no_frame [])
     = Raise (KeyError "checks")
  /\ outcome (check_health_io
                (scenario 0
                   (answer 200
                      (JObj [("success", JBool true);
                             ("data",
                              JObj [("status", JStr "healthy");
                                    ("checks",
                                     JObj [("solana",
                                            JObj [("latency",
                                                   JStr lone_surrogate)])])])]))
                   (answer 200 build_body))
                utf8_console entered no_frame [])
     = Raise (External "UnicodeEncodeError").
Proof. repeat split. Qed.

(** *** Lists of events *)




(** *** The events of the build step *)




Lemma execute_staking_event_kinds :
  forall (w : world) (self : PhaseStakingClient) (rpc : AsyncClient)
         (kp : Keypair) (stake_amount : float) (validator : option PublicKey)
         (fr : frame) (h : history),
    forallb is_staking_event
      (events (execute_staking w self rpc kp stake_amount validator fr h)) = true.
Proof.
  intros w self rpc kp stake_amount validator fr h.
  unfold execute_staking, execute_staking_try, sign_and_submit,
    build_stake_transaction.
  destruct (session self) as [s|]; run_all; reflexivity.
Qed.

Lemma execute_staking_events_in :
  forall (w : world) (self : PhaseStakingClient) (rpc : AsyncClient)
         (kp : Keypair) (stake_amount : float) (validator : option PublicKey)
         (fr : frame) (h : history) (ev : event),
    In ev (events (execute_staking w self rpc kp stake_amount validator fr h)) ->
    is_staking_event ev = true.
Proof.
  intros w self rpc kp stake_amount validator fr h ev.
  apply (proj1 (forallb_forall _ _) (execute_staking_event_kinds _ _ _ _ _ _ _ _)).
Qed.

Lemma execute_staking_keeps_frame :
  forall (w : world) (self : PhaseStakingClient) (rpc : AsyncClient)
         (kp : Keypair) (stake_amount : float) (validator : option PublicKey)
         (fr : frame) (h : history),
    fst (fst (execute_staking w self rpc kp stake_amount validator fr h)) = fr.
Proof.
  intros w self rpc kp stake_amount validator fr h.
  unfold execute_staking, execute_staking_try, sign_and_submit,
    build_stake_transaction.
  destruct (session self) as [s|]; run_all; reflexivity.
Qed.

(** *** Ordering of build and submission *)


(** *** Failures of [execute_staking] *)

Lemma execute_staking_io_printable :
  forall (w : world) (self : PhaseStakingClient) (rpc : AsyncClient)
         (kp : Keypair) (stake_amount : float) (validator : option PublicKey)
         (fr : frame) (h : history),
    execute_staking_io w (fun _ => None) self rpc kp stake_amount validator fr h
    = execute_staking w self rpc kp stake_amount validator fr h.
Proof. reflexivity. Qed.

(** What the [except] clause of [execute_staking] does with the exception
    of its [try] block: if the failure line can be printed, it is printed,
    last, and that exception is raised again; if printing it raises, that
    other exception is what the caller gets, and no failure line is
    printed. *)
Lemma execute_staking_io_handler :
  forall (w : world) (unprintable : line -> option exn)
         (self : PhaseStakingClient) (rpc : AsyncClient)
         (kp : Keypair) (stake_amount : float) (validator : option PublicKey)
         (fr : frame) (h : history) (e : exn),
    unprintable (Building stake_amount) = None ->
    let started := EPrint (Building stake_amount) in
    let attempt := execute_staking_try_io w unprintable self rpc kp stake_amount
                     validator fr (h ++ [started]) in
    let run := execute_staking_io w unprintable self rpc kp stake_amount
                 validator fr h in
    outcome attempt = Raise e ->
    match unprintable (StakingFailed e) with
    | None =>
        events run = started :: events attempt ++ [EPrint (StakingFailed e)]
        /\ outcome run = Raise e
    | Some e' =>
        events run = started :: events attempt
        /\ outcome run = Raise e'
    end.
Proof.
  intros w unprintable self rpc kp stake_amount validator fr h e Hstart
         started attempt run.
  unfold run, execute_staking_io, try_except, bind, print_io, raise.
  rewrite Hstart. fold started. fold attempt.
  destruct attempt as [[fr1 evs1] [r|e1]]; unfold outcome, events; simpl;
    [discriminate|].
  intros He. injection He as He. subst e1.
  destruct (unprintable (StakingFailed e)); simpl.
  - rewrite app_nil_r. auto.
  - auto.
Qed.

(** C5, at the input where the code departs from it: the build endpoint
    answers 400 with the error message ["\ud83d"], and the standard output
    is encoded in UTF-8.  The build step raises the API error; printing the
    failure line for it raises [UnicodeEncodeError] inside the [except]
    clause; the caller gets that exception instead of the API error, and
    no failure line is in the trace. *)
Theorem execute_staking_failure_replaced :
  let w := scenario 0 (answer 200 health_body) (answer 400 surrogate_body) in
  let api_error := Exception_ ("API Error: " ++ lone_surrogate) in
  outcome (build_stake_transaction w entered (public_key agent) 1.0%float None
             no_frame [EPrint (Building 1.0%float)])
  = Raise api_error
  /\ utf8_console (StakingFailed api_error) = Some (External "UnicodeEncodeError")
  /\ execute_staking_io w utf8_console entered mainnet agent 1.0%float None
       no_frame []
     = (no_frame,
        [EPrint (Building 1.0%float);
         EPost session0 "https://staking-api.phase.com/stake/build"
           (JObj (build_payload (public_key agent) 1.0%float None))
           (build_headers entered) (answer 400 surrogate_body)],
        Raise (External "UnicodeEncodeError")).
Proof. repeat split. Qed.

(** *** The outcome record *)

Lemma execute_staking_record :
  forall (w : world) (self : PhaseStakingClient) (rpc : AsyncClient)
         (kp : Keypair) (stake_amount : float) (validator : option PublicKey)
         (fr : frame) (h : history) (record : value),
    let build := build_stake_transaction w self (public_key kp) stake_amount
                   validator fr (h ++ [EPrint (Building stake_amount)]) in
    let run := execute_staking w self rpc kp stake_amount validator fr h in
    outcome run = Ok record ->
    exists (transaction_data response signature stake_account validator_id apy : value)
           (tx : Transaction),
      outcome build = Ok transaction_data
      /\ In (ESendTransaction rpc tx (Ok response)) (events run)
      /\ getitem response "result" = Ok signature
      /\ getitem2 transaction_data "metadata" "stakeAccount" = Ok stake_account
      /\ getitem2 transaction_data "metadata" "validator" = Ok validator_id
      /\ getitem2 transaction_data "metadata" "estimatedApy" = Ok apy
      /\ record = JObj [("signature", signature);
                        ("stake_account", stake_account);
                        ("validator", validator_id);
                        ("estimated_apy", apy)].
Proof.
  intros w self rpc kp stake_amount validator fr h record build run.
  unfold run, build, execute_staking, execute_staking_try, sign_and_submit,
    build_stake_transaction.
  destruct (session self) as [s|]; run_all; simpl; try discriminate.
  all: intros Hrecord; injection Hrecord as Hrecord; subst record.
  all: match goal with
       | Hdata : getitem _ "data" = Ok ?data,
         Hsend : send_transaction _ _ _ ?tx = Ok ?response,
         Hsig : getitem ?response "result" = Ok ?signature,
         Hacc : getitem2 ?data "metadata" "stakeAccount" = Ok ?account,
         Hval : getitem2 ?data "metadata" "validator" = Ok ?validator_id,
         Hapy : getitem2 ?data "metadata" "estimatedApy" = Ok ?apy |- _ =>
           exists data, response, signature, account, validator_id, apy, tx
       end.
  all: repeat split; try assumption.
  all: repeat (first [left; reflexivity | right]).
Qed.

Lemma main_dumps_the_outcome :
  forall (w : world) (record : value),
    In (EPrint (Dump record)) (events (run (main w))) ->
    exists (self : PhaseStakingClient) (rpc : AsyncClient) (kp : Keypair)
           (fr : frame) (h : history),
      outcome (execute_staking w self rpc kp 1.0%float None fr h) = Ok record.
Proof.
  intros w record. unfold run, main.
  destruct (getenv w "PHASE_API_KEY") as [key|].
  2: { simpl; intros Hin; in_cases Hin. }
  destruct (getenv w "AGENT_PRIVATE_KEY") as [private_key|].
  2: { simpl; intros Hin; in_cases Hin. }
  destruct (unset (Some key) || unset (Some private_key)).
  { simpl; intros Hin; in_cases Hin. }
  generalize (match getenv w "SOLANA_RPC_URL" with
              | Some u => u
              | None => default_rpc_url
              end).
  intros rpc_url.
  unfold main_block, check_health.
  main_cases.
  all: try match goal with
       | |- context [execute_staking ?w ?a ?b ?c ?d ?e ?f ?g] =>
           pose proof (execute_staking_events_in w a b c d e f g) as Hexec;
           pose proof (execute_staking_keeps_frame w a b c d e f g) as Hframe;
           destruct (execute_staking w a b c d e f g) as [[? ?] [?|?]] eqn:Hrun;
           simpl in Hframe; subst;
           main_cases
       end.
  all: simpl; intros Hin; in_cases Hin.
  all: try (apply Hexec in Hin; simpl in Hin; discriminate Hin).
  all: injection Hin as Hin; subst.
  all: eexists _, _, _, _, _; rewrite Hrun; reflexivity.
Qed.

(** C9: when [execute_staking] returns, the build step returned some
    [transaction_data], a [send_transaction] call of the run answered some
    [response], and the returned dict has exactly the four keys
    [signature], [stake_account], [validator], [estimated_apy], bound to
    [response["result"]] and to the [stakeAccount], [validator] and
    [estimatedApy] of [transaction_data["metadata"]].  The record is not
    changed after it is returned: what [main] then dumps is a record
    [execute_staking] returned, with these four keys. *)
Theorem execute_staking_outcome_record :
  forall (w : world),
    (forall (self : PhaseStakingClient) (rpc : AsyncClient) (kp : Keypair)
            (stake_amount : float) (validator : option PublicKey)
            (fr : frame) (h : history) (record : value),
        let build := build_stake_transaction w self (public_key kp) stake_amount
                       validator fr (h ++ [EPrint (Building stake_amount)]) in
        let run := execute_staking w self rpc kp stake_amount validator fr h in
        outcome run = Ok record ->
        exists (transaction_data response signature stake_account validator_id apy : value)
               (tx : Transaction),
          outcome build = Ok transaction_data
          /\ In (ESendTransaction rpc tx (Ok response)) (events run)
          /\ getitem response "result" = Ok signature
          /\ getitem2 transaction_data "metadata" "stakeAccount" = Ok stake_account
          /\ getitem2 transaction_data "metadata" "validator" = Ok validator_id
          /\ getitem2 transaction_data "metadata" "estimatedApy" = Ok apy
          /\ record = JObj [("signature", signature);
                            ("stake_account", stake_account);
                            ("validator", validator_id);
                            ("estimated_apy", apy)])
    /\ (forall record : value,
          In (EPrint (Dump record)) (events (run (main w))) ->
          exists (self : PhaseStakingClient) (rpc : AsyncClient) (kp : Keypair)
                 (fr : frame) (h : history)
                 (signature stake_account validator_id apy : value),
            outcome (execute_staking w self rpc kp 1.0%float None fr h) = Ok record
            /\ record = JObj [("signature", signature);
                              ("stake_account", stake_account);
                              ("validator", validator_id);
                              ("estimated_apy", apy)]).
Proof.
  intros w. split.
  - intros self rpc kp stake_amount validator fr h record.
    apply execute_staking_record.
  - intros record Hin.
    destruct (main_dumps_the_outcome w record Hin) as [self [rpc [kp [fr [h Hout]]]]].
    destruct (execute_staking_record w self rpc kp 1.0%float None fr h record Hout)
      as [data [response [signature [account [validator [apy [tx H]]]]]]].
    exists self, rpc, kp, fr, h, signature, account, validator, apy.
    split; [exact Hout|]. apply H.
Qed.

Lemma execute_staking_outcome_record_witness :
  exists record : value,
    outcome (execute_staking (happy 0) entered mainnet agent 1.0%float None no_frame [])
    = Ok record
    /\ record = JObj [("signature", JStr "Sig111");
                      ("stake_account", JStr "Stake111");
                      ("validator", JStr "Vote111");
                      ("estimated_apy", JFloat 7.5%float)].
Proof.
  eexists. split; [reflexivity|].
  destruct (proj1 (execute_staking_outcome_record (happy 0)) entered mainnet agent
              1.0%float None no_frame [] _ eq_refl)
    as [data [response [signature [account [validator [apy [tx H]]]]]]].
  reflexivity.
Defined.

(** *** The scope of the session *)

Lemma async_with_run :
  forall (w : world) (A : Type) (client : PhaseStakingClient)
         (block : PhaseStakingClient -> M A) (fr : frame) (h : history),
    match new_session w h with
    | Raise e =>
        async_with w client block fr h = (fr, [ENewSession (Raise e)], Raise e)
    | Ok s =>
        let inside := block (set_session client s) fr (h ++ [ENewSession (Ok s)]) in
        let closed :=
          session_close w ((h ++ [ENewSession (Ok s)]) ++ events inside) s in
        async_with w client block fr h
        = (fst (fst inside),
           ENewSession (Ok s) :: events inside ++ [ECloseSession s closed],
           match closed with
           | Ok _ => outcome inside
           | Raise e => Raise e
           end)
    end.
Proof.
  intros w A client block fr h.
  unfold async_with, aenter, aexit, try_finally, bind, call, ret.
  destruct (new_session w h) as [s|e]; [|reflexivity].
  simpl.
  destruct (block (set_session client s) fr (h ++ [ENewSession (Ok s)]))
    as [[fr1 evs1] r1].
  unfold events, outcome. simpl.
  destruct (session_close w _ s); reflexivity.
Qed.

Lemma main_block_keeps_session :
  forall (w : world) (rpc_url private_key : string) (client : PhaseStakingClient)
         (fr : frame) (h : history),
    count is_session_end (events (main_block w rpc_url private_key client fr h))
    = 0%nat.
Proof.
  intros w rpc_url private_key client fr h.
  unfold main_block, set_solana_client, check_health, execute_staking,
    execute_staking_try, sign_and_submit, build_stake_transaction.
  destruct (session client) as [s|]; run_all; reflexivity.
Qed.

(** C6: [async with] closes the session it opened whatever its block does:
    the events of the statement are the opening, those of the block, and
    the closing, for any block, also one that raises.  In [main]: without
    its configuration it opens nothing; with it, the run starts by opening
    the session; if that succeeds, the session is closed exactly once,
    later in the run, whatever happened in between, and no event on the
    session follows its closing; if it fails, the run has no other event on
    a session. *)
Theorem session_is_scoped :
  forall (w : world),
    (forall (A : Type) (client : PhaseStakingClient)
            (block : PhaseStakingClient -> M A) (fr : frame) (h : history)
            (s : ClientSession),
        new_session w h = Ok s ->
        let inside := block (set_session client s) fr (h ++ [ENewSession (Ok s)]) in
        exists closed : result unit,
          events (async_with w client block fr h)
          = ENewSession (Ok s) :: events inside ++ [ECloseSession s closed])
    /\ (let x := run (main w) in
        (configured w = false -> events x = [EPrint MissingEnv])
        /\ (configured w = true ->
            match new_session w [] with
            | Raise e =>
                exists after : list event,
                  events x = ENewSession (Raise e) :: after
                  /\ count is_session_event after = 0%nat
            | Ok s =>
                exists (inside after : list event) (closed : result unit),
                  events x
                  = ENewSession (Ok s) :: inside ++ ECloseSession s closed :: after
                  /\ count is_session_end inside = 0%nat
                  /\ count is_session_event after = 0%nat
            end)).
Proof.
  intros w. split.
  - intros A client block fr h s Hs inside.
    pose proof (async_with_run w A client block fr h) as Hrun.
    rewrite Hs in Hrun. cbv zeta in Hrun. fold inside in Hrun.
    rewrite Hrun. eexists. reflexivity.
  - unfold configured, run, main.
    destruct (getenv w "PHASE_API_KEY") as [key|];
      [|split; [reflexivity | discriminate]].
    destruct (getenv w "AGENT_PRIVATE_KEY") as [private_key|];
      [|split; [reflexivity | simpl; rewrite orb_true_r; discriminate]].
    destruct (unset (Some key) || unset (Some private_key));
      [split; [reflexivity | discriminate]|].
    split; [discriminate|]. intros _.
    generalize (match getenv w "SOLANA_RPC_URL" with
                | Some u => u
                | None => default_rpc_url
                end).
    intros rpc_url.
    pose proof (async_with_run w unit (init key default_base_url)
                  (main_block w rpc_url private_key) {| solana_client := None |} [])
      as Hrun.
    unfold try_finally, try_except.
    destruct (new_session w []) as [s|e].
    + cbv zeta in Hrun.
      pose proof (main_block_keeps_session w rpc_url private_key
                    (set_session (init key default_base_url) s)
                    {| solana_client := None |} ([] ++ [ENewSession (Ok s)])) as Hkeep.
      destruct (main_block w rpc_url private_key _ _ _) as [[fr1 inside] r1].
      rewrite Hrun. unfold events, outcome, fst, snd in *.
      exists inside.
      unfold close_solana_client, bind, print, raise, call.
      destruct (session_close w _ s); destruct r1; destruct (solana_client fr1);
        simpl;
        try match goal with
            | |- context [match rpc_close ?a ?b ?c with _ => _ end] =>
                destruct (rpc_close a b c)
            end;
        simpl; repeat rewrite <- app_assoc; simpl;
        eexists _, _; (split; [reflexivity | split; [exact Hkeep | reflexivity]]).
    + rewrite Hrun. simpl. eexists. split; [reflexivity|].
      reflexivity.
Qed.

(** *** The balance guard of [main] *)


(** C1, as the code has it.  In a run of [main] whose balance query was
    answered with a balance (the lamports of the answer divided by 10^9)
    below 1.1: [main] prints the balance and the insufficient-balance line
    right after the query, and after that only closes the session and the
    RPC client; no request is posted to the build endpoint and nothing is
    signed, sent or confirmed in the whole run.  The low balance raises
    nothing: [main] returns normally unless one of the two closing calls
    fails, and an exception of the run is the exception of such a call. *)
Theorem main_stops_on_low_balance :
  forall (w : world) (rpc : AsyncClient) (pk : PublicKey)
         (response lamports : value) (balance_sol : float),
    In (EGetBalance rpc pk (Ok response)) (events (run (main w))) ->
    getitem2 response "result" "value" = Ok lamports ->
    truediv_int lamports lamports_per_sol = Ok balance_sol ->
    PrimFloat.ltb balance_sol minimum_balance = true ->
    let x := run (main w) in
    (exists pre post : list event,
        events x = pre ++ [EGetBalance rpc pk (Ok response);
                           EPrint (BalanceLine balance_sol);
                           EPrint (Insufficient balance_sol)] ++ post
        /\ forallb is_cleanup post = true
        /\ ((forall ev, In ev post -> failure_of ev = None) -> outcome x = Ok tt)
        /\ (forall e, outcome x = Raise e ->
            exists ev, In ev post /\ is_close ev = true /\ failure_of ev = Some e))
    /\ count is_post (events x) = 0%nat
    /\ count is_sign (events x) = 0%nat
    /\ count is_send (events x) = 0%nat
    /\ count is_confirm (events x) = 0%nat.
Proof.
  intros w rpc pk response lamports balance_sol Hin Hvalue Hdiv Hlt x.
  revert Hin. unfold x, run, main.
  destruct (getenv w "PHASE_API_KEY") as [key|].
  2: { simpl; intros Hin; in_cases Hin. }
  destruct (getenv w "AGENT_PRIVATE_KEY") as [private_key|].
  2: { simpl; intros Hin; in_cases Hin. }
  destruct (unset (Some key) || unset (Some private_key)).
  { simpl; intros Hin; in_cases Hin. }
  generalize (match getenv w "SOLANA_RPC_URL" with
              | Some u => u
              | None => default_rpc_url
              end).
  intros rpc_url.
  unfold main_block, check_health.
  main_cases.
  all: try match goal with
       | |- context [execute_staking ?w ?a ?b ?c ?d ?e ?f ?g] =>
           pose proof (execute_staking_events_in w a b c d e f g) as Hexec;
           pose proof (execute_staking_keeps_frame w a b c d e f g) as Hframe;
           destruct (execute_staking w a b c d e f g) as [[? ?] [?|?]];
           simpl in Hframe; subst;
           main_cases
       end.
  all: simpl; intros Hin; in_cases Hin.
  all: try (apply Hexec in Hin; simpl in Hin; discriminate Hin).
  all: injection Hin as ? ? ?; subst; same_answers.
  all: (split; [|repeat split; reflexivity]).
  all: eexists [_; _; _], _.
  all: (split; [reflexivity|]; split; [reflexivity|]; split).
  all: try (intros Hnofail; first [reflexivity | failing_event_at Hnofail]).
  all: intros err Herr;
    first [discriminate Herr | injection Herr as Herr; subst err; find_failing_event].
Qed.

Lemma main_stops_on_low_balance_witness :
  count is_post (events (run (main (happy 1050000000)))) = 0%nat.
Proof.
  refine (proj1 (proj2
    (main_stops_on_low_balance (happy 1050000000) mainnet (public_key agent)
       (JObj [("result", JObj [("value", JInt 1050000000)])]) (JInt 1050000000)
       1.05%float _ eq_refl eq_refl eq_refl))).
  simpl. auto 10.
Defined.

(** With 1.05 SOL in the wallet, [main] raises nothing: it prints that the
    balance is insufficient and returns.  Its calls are the health request,
    the balance query and the two closings. *)
Lemma main_low_balance_returns :
  outcome (run (main (happy 1050000000))) = Ok tt
  /\ events (run (main (happy 1050000000)))
     = [ENewSession (Ok session0);
        EGet session0 "https://staking-api.phase.com/health"
          (answer 200 health_body);
        EPrint (Healthy (JInt 42));
        EGetBalance mainnet (public_key agent)
          (Ok (JObj [("result", JObj [("value", JInt 1050000000)])]));
        EPrint (BalanceLine 1.05%float);
        EPrint (Insufficient 1.05%float);
        ECloseSession session0 (Ok tt);
        ECloseRpc mainnet (Ok tt)].
Proof. split; reflexivity. Qed.

(** ** Further properties *)

(** *** The base URL of a client *)

Lemma rstrip_app_char :
  forall (c : ascii) (s : string),
    rstrip c (s ++ String c EmptyString)%string = rstrip c s.
Proof.
  intros c s. induction s as [|a s IH]; simpl.
  - rewrite Ascii.eqb_refl. reflexivity.
  - rewrite IH. reflexivity.
Qed.

Lemma rstrip_no_trailing :
  forall (c : ascii) (s t : string),
    rstrip c s <> (t ++ String c EmptyString)%string.
Proof.
  intros c s. induction s as [|a s IH]; intros t; simpl.
  - destruct t; discriminate.
  - destruct (rstrip c s) as [|b r] eqn:Hr.
    + destruct (Ascii.eqb_spec a c) as [Heq|Hneq].
      * destruct t; discriminate.
      * destruct t as [|x t]; simpl.
        -- intros H. injection H as H. contradiction.
        -- intros H. injection H as _ H. destruct t; discriminate.
    + destruct t as [|x t]; simpl.
      * discriminate.
      * intros H. injection H as _ H. apply (IH t). exact H.
Qed.

Lemma rstrip_slashes :
  forall s : string, exists n : nat, s = (rstrip "/"%char s ++ slashes n)%string.
Proof.
  induction s as [|a s [n IH]]; simpl.
  - exists 0%nat. reflexivity.
  - destruct (rstrip "/"%char s) as [|b r] eqn:Hr.
    + simpl in IH. destruct (Ascii.eqb_spec a "/"%char) as [Heq|Hneq].
      * exists (S n). subst a. simpl. rewrite <- IH. reflexivity.
      * exists n. simpl. rewrite <- IH. reflexivity.
    + exists n. simpl. simpl in IH. rewrite <- IH. reflexivity.
Qed.

(** X1: [__init__] stores the base URL without its trailing slashes: the
    stored URL never ends with a slash, the given URL is the stored one
    followed by slashes only, and one more trailing slash in the given URL
    changes nothing, so the build endpoint is the same either way. *)
Theorem init_strips_trailing_slashes :
  forall (key url : string),
    (forall t : string, base_url (init key url) <> (t ++ "/")%string)
    /\ (exists n : nat, url = (base_url (init key url) ++ slashes n)%string)
    /\ base_url (init key (url ++ "/")) = base_url (init key url)
    /\ (forall (w : world) (s : ClientSession) (agent_wallet : PublicKey)
               (stake_amount : float) (validator : option PublicKey)
               (fr : frame) (h : history),
           build_stake_transaction w (set_session (init key (url ++ "/")) s)
             agent_wallet stake_amount validator fr h
           = build_stake_transaction w (set_session (init key url) s)
               agent_wallet stake_amount validator fr h).
Proof.
  intros key url.
  assert (Hsame : init key (url ++ "/") = init key url).
  { unfold init. rewrite rstrip_app_char. reflexivity. }
  split; [|split; [|split]].
  - apply rstrip_no_trailing.
  - apply rstrip_slashes.
  - rewrite Hsame. reflexivity.
  - intros. rewrite Hsame. reflexivity.
Qed.

(** *** Cutting a list of events *)

Lemma splits_spec :
  forall (A : Type) (pre post : list A) (x : A) (l : list A),
    l = pre ++ x :: post -> In (pre, x, post) (splits l).
Proof.
  intros A pre. induction pre as [|y pre IH]; intros post x l Hl; subst l; simpl.
  - left. reflexivity.
  - right. apply (in_map (fun s => match s with (p, e, q) => (y :: p, e, q) end)
                    (splits (pre ++ x :: post)) (pre, x, post)).
    apply IH. reflexivity.
Qed.

(** *** What the build step returns *)

(** X2: with a session and an answered request, [build_stake_transaction]
    decodes the body before it looks at the status, so a body that is not
    JSON raises the decoder's exception whatever the status; on a status
    below 400 it returns [body["data"]] as it is, raises [KeyError("data")]
    if the object has no such key, and [TypeError] if the body is not an
    object.  A failure of the request itself is raised as it is. *)
Theorem build_stake_transaction_returns_data :
  forall (w : world) (self : PhaseStakingClient) (s : ClientSession)
         (agent_wallet : PublicKey) (stake_amount : float)
         (validator : option PublicKey) (fr : frame) (h : history),
    session self = Some s ->
    let out := outcome (build_stake_transaction w self agent_wallet stake_amount
                          validator fr h) in
    match session_post w h s (base_url self ++ "/stake/build")%string
            (JObj (build_payload agent_wallet stake_amount validator))
            (build_headers self) with
    | Raise e => out = Raise e
    | Ok response =>
        match json response with
        | Raise e => out = Raise e
        | Ok body =>
            status response < 400 ->
            match body with
            | JObj d =>
                match dict_lookup d "data" with
                | Some data => out = Ok data
                | None => out = Raise (KeyError "data")
                end
            | _ => out = Raise TypeError
            end
        end
    end.
Proof.
  intros w self s agent_wallet stake_amount validator fr h Hs out.
  unfold out, build_stake_transaction. rewrite Hs.
  unfold bind, call, lift, raise, outcome.
  destruct (session_post w h s _ _ _) as [response|e]; [|reflexivity].
  destruct (json response) as [body|e]; [|reflexivity].
  intros Hstatus.
  assert (Hok : negb (ok response) = false).
  { unfold ok. destruct (Z.ltb_spec (status response) 400); [reflexivity | lia]. }
  rewrite Hok.
  destruct body as [| | | | | |d]; try reflexivity.
  simpl. destruct (dict_lookup d "data"); reflexivity.
Qed.

Lemma build_stake_transaction_returns_data_witness :
  outcome (build_stake_transaction (happy 0) entered (public_key agent) 1.0%float
             None no_frame [])
  = getitem build_body "data".
Proof.
  pose proof (build_stake_transaction_returns_data (happy 0) entered session0
                (public_key agent) 1.0%float None no_frame [] eq_refl) as H.
  simpl in H. apply H. lia.
Defined.

(** X3: on a status of 400 or more, the error message is read with two
    [.get] calls, which only a dict has: a body that is not a JSON object,
    or whose [error] is not one, raises [AttributeError] and not the API
    error. *)
Theorem build_stake_transaction_malformed_error :
  forall (w : world) (self : PhaseStakingClient) (s : ClientSession)
         (agent_wallet : PublicKey) (stake_amount : float)
         (validator : option PublicKey) (fr : frame) (h : history)
         (response : ClientResponse) (body : value),
    session self = Some s ->
    session_post w h s (base_url self ++ "/stake/build")%string
      (JObj (build_payload agent_wallet stake_amount validator))
      (build_headers self) = Ok response ->
    400 <= status response ->
    json response = Ok body ->
    (forall d : dict,
        body = JObj d ->
        exists error : value,
          dict_lookup d "error" = Some error
          /\ forall e : dict, error <> JObj e) ->
    outcome (build_stake_transaction w self agent_wallet stake_amount validator fr h)
    = Raise AttributeError.
Proof.
  intros w self s agent_wallet stake_amount validator fr h response body
         Hs Hpost Hstatus Hjson Hbad.
  assert (Hok : negb (ok response) = true).
  { unfold ok. destruct (Z.ltb_spec (status response) 400); [lia | reflexivity]. }
  unfold build_stake_transaction. rewrite Hs.
  unfold bind, call, lift, raise, outcome. rewrite Hpost, Hjson, Hok.
  destruct body as [| | | | | |d]; try reflexivity.
  destruct (Hbad d eq_refl) as [error [Herror Hnot]].
  simpl. rewrite Herror.
  destruct error as [| | | | | |e]; try reflexivity.
  destruct (Hnot e eq_refl).
Qed.

Lemma build_stake_transaction_malformed_error_witness :
  outcome (build_stake_transaction
             (scenario 0 (answer 200 health_body)
                (answer 503 (JObj [("error", JStr "Service Unavailable")])))
             entered (public_key agent) 1.0%float None no_frame [])
  = Raise AttributeError.
Proof.
  apply (build_stake_transaction_malformed_error
           (scenario 0 (answer 200 health_body)
              (answer 503 (JObj [("error", JStr "Service Unavailable")])))
           entered session0 (public_key agent) 1.0%float None no_frame []
           {| status := 503; json := Ok (JObj [("error", JStr "Service Unavailable")]) |}
           (JObj [("error", JStr "Service Unavailable")])
           eq_refl eq_refl).
  - simpl. lia.
  - reflexivity.
  - intros d Hd. injection Hd as Hd. subst d.
    exists (JStr "Service Unavailable"). split; [reflexivity | discriminate].
Defined.

(** *** The steps of [execute_staking] *)

(** X4: the whole trace of a run of [execute_staking] that returns.  The
    run posts one build request, prints the [stakeAccount], the
    [validator] and the [estimatedApy] of the metadata of the build answer
    and the sum of its two fees, signs with the agent's keypair the
    transaction decoded from [transaction.serialized] of the build answer,
    as it was deserialized, sends what the signing gave, confirms the
    signature found in the answer to the sending, and prints its success,
    the link of that signature and the link of the stake account; it does
    nothing else. *)
Theorem execute_staking_success_trace :
  forall (w : world) (self : PhaseStakingClient) (rpc : AsyncClient)
         (kp : Keypair) (stake_amount : float) (validator : option PublicKey)
         (fr : frame) (h : history) (record : value),
    outcome (execute_staking w self rpc kp stake_amount validator fr h) = Ok record ->
    exists (s : ClientSession) (response : ClientResponse)
           (account validator_id apy total : value)
           (tx signed : Transaction) (sent signature confirmed : value)
           (data fees transaction_fee rake_fee serialized : value) (raw : bytes),
      events (execute_staking w self rpc kp stake_amount validator fr h)
      = [EPrint (Building stake_amount);
         EPost s (base_url self ++ "/stake/build")%string
           (JObj (build_payload (public_key kp) stake_amount validator))
           (build_headers self) (Ok response);
         EPrint Built;
         EPrint (StakeAccountLine account);
         EPrint (ValidatorLine validator_id);
         EPrint (ApyLine apy);
         EPrint (TotalFeesLine total);
         ESign tx kp (Ok signed);
         EPrint SignedLine;
         ESendTransaction rpc signed (Ok sent);
         EConfirmTransaction rpc signature (Ok confirmed);
         EPrint SuccessLine;
         EPrint (TxLink signature);
         EPrint (StakeLink account)]
      /\ session self = Some s
      /\ outcome (build_stake_transaction w self (public_key kp) stake_amount
                    validator fr (h ++ [EPrint (Building stake_amount)])) = Ok data
      /\ getitem2 data "metadata" "stakeAccount" = Ok account
      /\ getitem2 data "metadata" "validator" = Ok validator_id
      /\ getitem2 data "metadata" "estimatedApy" = Ok apy
      /\ getitem2 data "transaction" "serialized" = Ok serialized
      /\ b64decode w serialized = Ok raw
      /\ deserialize w raw = Ok tx
      /\ sign w tx kp = Ok signed
      /\ getitem sent "result" = Ok signature
      /\ getitem2 data "metadata" "fees" = Ok fees
      /\ getitem fees "transactionFee" = Ok transaction_fee
      /\ getitem fees "rakeFee" = Ok rake_fee
      /\ add transaction_fee rake_fee = Ok total.
Proof.
  intros w self rpc kp stake_amount validator fr h record.
  staking_cases; simpl; try discriminate.
  all: intros _; do 17 eexists.
  all: split; [reflexivity|].
  all: repeat split; first [eassumption | reflexivity].
Qed.

Lemma execute_staking_success_trace_witness :
  exists tail : list event,
    events (execute_staking (happy 0) entered mainnet agent 1.0%float None no_frame [])
    = EPrint (Building 1.0%float) :: tail.
Proof.
  destruct (execute_staking_success_trace (happy 0) entered mainnet agent 1.0%float
              None no_frame [] _ eq_refl)
    as [s [response [account [validator_id [apy [total [tx [signed [sent
       [signature [confirmed [data [fees [tf [rf [serialized [raw [Hevents _]]]]]]]]]]]]]]]]]].
  rewrite Hevents. eexists. reflexivity.
Defined.

(** X5: nothing is signed before the details of the transaction are on
    the screen.  In any run of [execute_staking], what precedes a signing
    is exactly: the start line, the build request, which was answered, and
    the lines with the [stakeAccount], the [validator] and the
    [estimatedApy] of the metadata of the build answer and with the sum of
    its [transactionFee] and [rakeFee]; the key that signs is the agent's,
    and what is signed is the deserialized transaction of the build
    answer. *)
Theorem execute_staking_signs_after_display :
  forall (w : world) (self : PhaseStakingClient) (rpc : AsyncClient)
         (kp : Keypair) (stake_amount : float) (validator : option PublicKey)
         (fr : frame) (h : history)
         (pre post : list event) (tx : Transaction) (signer : Keypair)
         (r : result Transaction),
    events (execute_staking w self rpc kp stake_amount validator fr h)
    = pre ++ ESign tx signer r :: post ->
    exists (s : ClientSession) (response : ClientResponse)
           (account validator_id apy total data serialized : value) (raw : bytes)
           (fees transaction_fee rake_fee : value),
      pre = [EPrint (Building stake_amount);
             EPost s (base_url self ++ "/stake/build")%string
               (JObj (build_payload (public_key kp) stake_amount validator))
               (build_headers self) (Ok response);
             EPrint Built;
             EPrint (StakeAccountLine account);
             EPrint (ValidatorLine validator_id);
             EPrint (ApyLine apy);
             EPrint (TotalFeesLine total)]
      /\ signer = kp
      /\ r = sign w tx kp
      /\ outcome (build_stake_transaction w self (public_key kp) stake_amount
                    validator fr (h ++ [EPrint (Building stake_amount)])) = Ok data
      /\ getitem2 data "metadata" "stakeAccount" = Ok account
      /\ getitem2 data "metadata" "validator" = Ok validator_id
      /\ getitem2 data "metadata" "estimatedApy" = Ok apy
      /\ getitem2 data "metadata" "fees" = Ok fees
      /\ getitem fees "transactionFee" = Ok transaction_fee
      /\ getitem fees "rakeFee" = Ok rake_fee
      /\ add transaction_fee rake_fee = Ok total
      /\ getitem2 data "transaction" "serialized" = Ok serialized
      /\ b64decode w serialized = Ok raw
      /\ deserialize w raw = Ok tx.
Proof.
  intros w self rpc kp stake_amount validator fr h pre post tx signer r Hcut.
  apply splits_spec in Hcut. revert Hcut.
  staking_cases; intros Hcut; cut_cases Hcut.
  all: injection Hcut as ? ? ? ? ?; subst.
  all: do 12 eexists.
  all: split; [reflexivity|].
  all: repeat split; first [eassumption | reflexivity | symmetry; eassumption].
Qed.

Lemma execute_staking_signs_after_display_witness :
  exists (s : ClientSession) (response : ClientResponse)
         (account validator_id apy total : value),
    firstn 7 (events (execute_staking (happy 0) entered mainnet agent 1.0%float
                        None no_frame []))
    = [EPrint (Building 1.0%float);
       EPost s (base_url entered ++ "/stake/build")%string
         (JObj (build_payload (public_key agent) 1.0%float None))
         (build_headers entered) (Ok response);
       EPrint Built;
       EPrint (StakeAccountLine account);
       EPrint (ValidatorLine validator_id);
       EPrint (ApyLine apy);
       EPrint (TotalFeesLine total)].
Proof.
  destruct (execute_staking_signs_after_display (happy 0) entered mainnet agent
              1.0%float None no_frame []
              (firstn 7 (events (execute_staking (happy 0) entered mainnet agent
                                   1.0%float None no_frame [])))
              (skipn 8 (events (execute_staking (happy 0) entered mainnet agent
                                  1.0%float None no_frame [])))
              {| message := []; signatures := [] |} agent
              (Ok {| message := []; signatures := [[]] |}) eq_refl)
    as [s [response [account [validator_id [apy [total [data [serialized [raw
       [fees [transaction_fee [rake_fee [Hpre _]]]]]]]]]]]]].
  exists s, response, account, validator_id, apy, total. exact Hpre.
Defined.

(** X6: sending follows a successful signing, and confirming a successful
    sending.  In any run of [execute_staking], what is sent is what the
    signing just before returned, on the RPC client given; and what is
    confirmed, on the same client, is the [result] of the answer to the
    sending just before. *)
Theorem execute_staking_send_and_confirm :
  forall (w : world) (self : PhaseStakingClient) (rpc : AsyncClient)
         (kp : Keypair) (stake_amount : float) (validator : option PublicKey)
         (fr : frame) (h : history),
    let evs := events (execute_staking w self rpc kp stake_amount validator fr h) in
    (forall (pre post : list event) (c : AsyncClient) (tx : Transaction)
            (r : result value),
        evs = pre ++ ESendTransaction c tx r :: post ->
        c = rpc
        /\ exists (before : list event) (unsigned : Transaction),
             pre = before ++ [ESign unsigned kp (Ok tx); EPrint SignedLine])
    /\ (forall (pre post : list event) (c : AsyncClient) (signature : value)
               (r : result value),
           evs = pre ++ EConfirmTransaction c signature r :: post ->
           c = rpc
           /\ exists (before : list event) (tx : Transaction) (sent : value),
                pre = before ++ [ESendTransaction rpc tx (Ok sent)]
                /\ getitem sent "result" = Ok signature).
Proof.
  intros w self rpc kp stake_amount validator fr h evs. unfold evs. split.
  - intros pre post c tx r Hcut. apply splits_spec in Hcut. revert Hcut.
    staking_cases; intros Hcut; cut_cases Hcut.
    all: injection Hcut as ? ? ? ? ?; subst.
    all: split; [reflexivity|].
    all: eexists [_; _; _; _; _; _; _], _; reflexivity.
  - intros pre post c signature r Hcut. apply splits_spec in Hcut. revert Hcut.
    staking_cases; intros Hcut; cut_cases Hcut.
    all: injection Hcut as ? ? ? ? ?; subst.
    all: split; [reflexivity|].
    all: eexists [_; _; _; _; _; _; _; _; _], _, _; split; [reflexivity | eassumption].
Qed.

(** X7: the two closing lines of [execute_staking] and its outcome, on a
    console where printing can fail.  A run that returns has printed the
    success line; the success line comes directly after a confirmation that
    succeeded, and after it only a failed print can make the run raise; a
    run that printed the failure line for an exception raises that
    exception; and a run that raises an exception has printed the failure
    line for it, unless the exception is that of a failed print. *)
Theorem execute_staking_reports_outcome :
  forall (w : world) (unprintable : line -> option exn)
         (self : PhaseStakingClient) (rpc : AsyncClient)
         (kp : Keypair) (stake_amount : float) (validator : option PublicKey)
         (fr : frame) (h : history),
    let run := execute_staking_io w unprintable self rpc kp stake_amount
                 validator fr h in
    (forall record : value,
        outcome run = Ok record -> In (EPrint SuccessLine) (events run))
    /\ (forall pre post : list event,
           events run = pre ++ EPrint SuccessLine :: post ->
           exists (before : list event) (signature confirmed : value),
             pre = before ++ [EConfirmTransaction rpc signature (Ok confirmed)])
    /\ (forall e : exn,
           In (EPrint SuccessLine) (events run) ->
           outcome run = Raise e ->
           exists l : line, unprintable l = Some e)
    /\ (forall e : exn,
           In (EPrint (StakingFailed e)) (events run) -> outcome run = Raise e)
    /\ (forall e : exn,
           outcome run = Raise e ->
           In (EPrint (StakingFailed e)) (events run)
           \/ exists l : line, unprintable l = Some e).
Proof.
  intros w unprintable self rpc kp stake_amount validator fr h run. unfold run.
  pattern (execute_staking_io w unprintable self rpc kp stake_amount validator fr h).
  match goal with |- ?P ?x => set (Q := P) end.
  destruct (session self) eqn:Hs; io_cases; subst Q; cbv beta; simpl.
  all: split; [|split; [|split; [|split]]].
  all: try (intros record Hout; first [discriminate Hout | solve [find_event]]).
  all: try (intros pre post Hcut; apply splits_spec in Hcut; cut_cases Hcut;
            injection Hcut as ? ?; subst;
            eexists [_; _; _; _; _; _; _; _; _; _], _, _; reflexivity).
  all: try (intros err Hin Hout;
            first [ discriminate Hout
                  | in_cases Hin; fail
                  | injection Hout as Hout; subst; eexists; eassumption ]).
  all: try (intros err Hin;
            first [ in_cases Hin; fail
                  | in_cases Hin; injection Hin as Hin; subst; reflexivity ]).
  all: intros err Hout; first [discriminate Hout | injection Hout as Hout; subst];
    first [ left; solve [find_event] | right; eexists; eassumption ].
Qed.

(** *** What the health check prints *)

(** X8: with a session, [check_health] sends one GET to
    [base_url ++ "/health"] and prints one line exactly when it returns:
    the healthy line, with the latency found in the body, when it returns
    [True], and the unhealthy line when it returns [False]; it prints
    nothing when it raises. *)
Theorem check_health_reports :
  forall (w : world) (self : PhaseStakingClient) (s : ClientSession)
         (fr : frame) (h : history),
    session self = Some s ->
    let url := (base_url self ++ "/health")%string in
    let answer := session_get w h s url in
    check_health w self fr h
    = (fr,
       EGet s url answer
       :: match outcome (check_health w self fr h), answer with
          | Ok true, Ok response =>
              match json response with
              | Ok body =>
                  match latency_of body with
                  | Ok latency => [EPrint (Healthy latency)]
                  | Raise _ => []
                  end
              | Raise _ => []
              end
          | Ok false, _ => [EPrint Unhealthy]
          | _, _ => []
          end,
       outcome (check_health w self fr h)).
Proof.
  intros w self s fr h Hs url answer. unfold answer, url.
  unfold check_health. rewrite Hs.
  unfold bind, call, lift, print, ret, outcome, latency_of, getitem2.
  destruct (session_get w h s _) as [response|e]; [|reflexivity].
  destruct (json response) as [body|e]; [|reflexivity].
  destruct (health_condition response body) as [[|]|e]; try reflexivity.
  destruct (getitem body "data") as [data|e]; [|reflexivity].
  destruct (getitem data "checks") as [checks|e]; [|reflexivity].
  destruct (getitem checks "solana") as [solana|e]; [|reflexivity].
  destruct (getitem solana "latency"); reflexivity.
Qed.

Lemma check_health_reports_witness :
  check_health (happy 0) entered no_frame []
  = (no_frame,
     [EGet session0 "https://staking-api.phase.com/health" (answer 200 health_body);
      EPrint (Healthy (JInt 42))],
     Ok true).
Proof.
  exact (check_health_reports (happy 0) entered session0 no_frame [] eq_refl).
Defined.

(** *** The configuration of [main] *)

(** X9: [main] needs its two settings.  If [PHASE_API_KEY] or
    [AGENT_PRIVATE_KEY] is unset or empty, it prints one line and returns
    without any call: no session is opened and no RPC client is used.
    Otherwise the first thing it does is to open the session. *)
Theorem main_needs_configuration :
  forall w : world,
    (configured w = false ->
     run (main w) = (no_frame, [EPrint MissingEnv], Ok tt))
    /\ (configured w = true ->
        exists (r : result ClientSession) (rest : list event),
          events (run (main w)) = ENewSession r :: rest).
Proof.
  intros w. unfold configured, run, main.
  destruct (getenv w "PHASE_API_KEY") as [key|];
    [|split; [reflexivity | discriminate]].
  destruct (getenv w "AGENT_PRIVATE_KEY") as [private_key|];
    [|split; [reflexivity | simpl; rewrite orb_true_r; discriminate]].
  destruct (unset (Some key) || unset (Some private_key));
    [split; [reflexivity | discriminate]|].
  split; [discriminate|]. intros _.
  unfold try_finally, try_except.
  pose proof (async_with_run w unit (init key default_base_url)
                (main_block w
                   match getenv w "SOLANA_RPC_URL" with
                   | Some u => u
                   | None => default_rpc_url
                   end private_key) {| solana_client := None |} []) as Hrun.
  destruct (new_session w []) as [s|e].
  - cbv zeta in Hrun. rewrite Hrun.
    destruct (main_block w _ private_key _ _ _) as [[fr1 inside] r1].
    unfold events, outcome, fst, snd.
    unfold close_solana_client, bind, print, raise, call.
    destruct (session_close w _ s); destruct r1; destruct (solana_client fr1);
      simpl;
      try match goal with
          | |- context [match rpc_close ?a ?b ?c with _ => _ end] =>
              destruct (rpc_close a b c)
          end;
      simpl; eexists _, _; reflexivity.
  - rewrite Hrun. simpl. eexists _, _. reflexivity.
Qed.

(** X10: if the session cannot be created, [main] prints the error line
    for that exception, but what it raises is another exception: its
    [finally] block reads [solana_client], which is assigned only inside
    the [async with] block, so the run ends with [UnboundLocalError]. *)
Theorem main_session_failure :
  forall (w : world) (e : exn),
    configured w = true ->
    new_session w [] = Raise e ->
    events (run (main w)) = [ENewSession (Raise e); EPrint (ErrorLine e)]
    /\ outcome (run (main w)) = Raise (UnboundLocalError "solana_client").
Proof.
  intros w e. unfold configured, run, main.
  destruct (getenv w "PHASE_API_KEY") as [key|]; [|discriminate].
  destruct (getenv w "AGENT_PRIVATE_KEY") as [private_key|];
    [|simpl; rewrite orb_true_r; discriminate].
  destruct (unset (Some key) || unset (Some private_key)); [discriminate|].
  intros _ Hnew.
  unfold try_finally, try_except.
  pose proof (async_with_run w unit (init key default_base_url)
                (main_block w
                   match getenv w "SOLANA_RPC_URL" with
                   | Some u => u
                   | None => default_rpc_url
                   end private_key) {| solana_client := None |} []) as Hrun.
  rewrite Hnew in Hrun. rewrite Hrun. split; reflexivity.
Qed.

Lemma main_session_failure_witness :
  outcome (run (main offline)) = Raise (UnboundLocalError "solana_client").
Proof.
  exact (proj2 (main_session_failure offline (External "ClientConnectorError")
                  eq_refl eq_refl)).
Defined.

(** *** The handles [main] works with *)

Lemma execute_staking_handles :
  forall (w : world) (self : PhaseStakingClient) (rpc : AsyncClient)
         (kp : Keypair) (stake_amount : float) (validator : option PublicKey)
         (fr : frame) (h : history) (ev : event),
    In ev (events (execute_staking w self rpc kp stake_amount validator fr h)) ->
    (forall c : AsyncClient, rpc_client_of ev = Some c -> c = rpc)
    /\ (forall s : ClientSession, session_of ev = Some s -> session self = Some s).
Proof.
  intros w self rpc kp stake_amount validator fr h ev.
  staking_cases; simpl; intros Hin;
    repeat (destruct Hin as [Hin|Hin];
            [subst ev; simpl; split; intros ? Heq;
             first [discriminate Heq | injection Heq as Heq; subst; reflexivity]|]);
    destruct Hin.
Qed.

(** X11: a run of [main] works with one session and one RPC client.  Every
    request of the run is made on the session that [main] opened first,
    and every RPC call, the closing included, on the client of the
    endpoint [SOLANA_RPC_URL], or of the mainnet endpoint when that is not
    set, with the commitment [Confirmed]. *)
Theorem main_uses_one_session_and_client :
  forall (w : world) (ev : event),
    In ev (events (run (main w))) ->
    (forall c : AsyncClient,
        rpc_client_of ev = Some c ->
        c = {| endpoint := configured_rpc_url w; commitment := Confirmed |})
    /\ (forall s : ClientSession,
           session_of ev = Some s -> new_session w [] = Ok s).
Proof.
  intros w ev. unfold run, main, configured_rpc_url.
  destruct (getenv w "PHASE_API_KEY") as [key|].
  2: { simpl; intros Hin; in_cases Hin; subst ev; split; discriminate. }
  destruct (getenv w "AGENT_PRIVATE_KEY") as [private_key|].
  2: { simpl; intros Hin; in_cases Hin; subst ev; split; discriminate. }
  destruct (unset (Some key) || unset (Some private_key)).
  { simpl; intros Hin; in_cases Hin; subst ev; split; discriminate. }
  generalize (match getenv w "SOLANA_RPC_URL" with
              | Some u => u
              | None => default_rpc_url
              end).
  intros rpc_url.
  unfold main_block, check_health.
  main_cases.
  all: try match goal with
       | |- context [execute_staking ?w ?a ?b ?c ?d ?e ?f ?g] =>
           pose proof (execute_staking_handles w a b c d e f g) as Hexec;
           pose proof (execute_staking_keeps_frame w a b c d e f g) as Hframe;
           destruct (execute_staking w a b c d e f g) as [[? ?] [?|?]];
           simpl in Hframe; subst;
           main_cases
       end.
  all: simpl; intros Hin.
  all: repeat match type of Hin with
              | _ \/ _ => destruct Hin as [Hin|Hin]
              | In _ (_ ++ _) => apply in_app_or in Hin; destruct Hin as [Hin|Hin]
              | In _ (_ :: _) => destruct Hin as [Hin|Hin]
              | In _ [] => destruct Hin
              | False => destruct Hin
              end.
  all: try (destruct (Hexec ev Hin) as [Hc Hs]; split;
            [exact Hc | intros s Hsess; apply Hs in Hsess; simpl in Hsess;
                        injection Hsess as Hsess; subst; reflexivity]).
  all: subst ev; simpl; split; intros ? Heq;
    first [discriminate Heq | injection Heq as Heq; subst; reflexivity].
Qed.

Lemma main_uses_one_session_and_client_witness :
  new_session (happy 2000000000) [] = Ok session0.
Proof.
  refine (proj2 (main_uses_one_session_and_client (happy 2000000000)
                   (EPost session0 "https://staking-api.phase.com/stake/build"
                      (JObj (build_payload (public_key agent) 1.0%float None))
                      (build_headers entered) (answer 200 build_body)) _)
            session0 eq_refl).
  simpl. auto 10.
Defined.

(** *** The build request of [main] *)

Lemma cut_cons :
  forall (A : Type) (x ev : A) (l pre post : list A),
    x :: l = pre ++ ev :: post ->
    (pre = [] /\ x = ev /\ l = post)
    \/ (exists pre', pre = x :: pre' /\ l = pre' ++ ev :: post).
Proof.
  intros A x ev l pre post H. destruct pre as [|y pre]; simpl in H.
  - injection H as Hx Hl. left. auto.
  - injection H as Hx Hl. subst y. right. exists pre. auto.
Qed.

Lemma execute_staking_post_request :
  forall (w : world) (self : PhaseStakingClient) (rpc : AsyncClient)
         (kp : Keypair) (stake_amount : float) (validator : option PublicKey)
         (fr : frame) (h : history)
         (s : ClientSession) (url : string) (body : value)
         (headers : list (string * string)) (r : result ClientResponse),
    In (EPost s url body headers r)
       (events (execute_staking w self rpc kp stake_amount validator fr h)) ->
    session self = Some s
    /\ url = (base_url self ++ "/stake/build")%string
    /\ body = JObj (build_payload (public_key kp) stake_amount validator)
    /\ headers = build_headers self.
Proof.
  intros w self rpc kp stake_amount validator fr h s url body headers r.
  staking_cases; simpl; intros Hin; in_cases Hin.
  all: injection Hin as ? ? ? ? ?; subst; auto.
Qed.

Lemma main_post_context :
  forall (w : world) (pre post : list event) (s : ClientSession) (url : string)
         (body : value) (headers : list (string * string))
         (r : result ClientResponse),
    events (run (main w)) = pre ++ EPost s url body headers r :: post ->
    exists (key private_key : string) (secret : bytes) (kp : Keypair)
           (c : AsyncClient) (response lamports : value) (balance_sol : float),
      getenv w "PHASE_API_KEY" = Some key
      /\ getenv w "AGENT_PRIVATE_KEY" = Some private_key
      /\ b64decode w (JStr private_key) = Ok secret
      /\ from_secret_key w secret = Ok kp
      /\ url = "https://staking-api.phase.com/stake/build"
      /\ body = JObj [("agentWallet", JStr (base58 (public_key kp)));
                      ("stakeAmount", JFloat 1.0%float)]
      /\ headers = [("Content-Type", "application/json");
                    ("Authorization", ("Bearer " ++ key)%string)]
      /\ In (ENewSession (Ok s)) pre
      /\ In (EGetBalance c (public_key kp) (Ok response)) pre
      /\ getitem2 response "result" "value" = Ok lamports
      /\ truediv_int lamports lamports_per_sol = Ok balance_sol
      /\ PrimFloat.ltb balance_sol minimum_balance = false.
Proof.
  intros w pre post s url body headers r.
  main_start w.
  1, 3, 4: simpl; intros Hcut; peel cut_cons Hcut; cut_end Hcut.
  unfold main_block, check_health.
  main_cases.
  all: try match goal with
       | |- context [execute_staking ?w ?a ?b ?c ?d ?e ?f ?g] =>
           pose proof (execute_staking_post_request w a b c d e f g) as Hexec;
           pose proof (execute_staking_keeps_frame w a b c d e f g) as Hframe;
           destruct (execute_staking w a b c d e f g) as [[? ?] [?|?]];
           simpl in Hframe; subst;
           main_cases
       end.
  all: simpl; intros Hcut; peel cut_cons Hcut.
  all: try (cut_end Hcut).
  all: match goal with
       | x : list event |- _ =>
           match type of Hcut with
           | _ = x ++ ?ev :: ?q =>
               assert (Hin : In ev (x ++ ev :: q)) by (apply in_elt);
               rewrite <- Hcut in Hin
           end
       end.
  all: in_cases Hin.
  all: destruct (Hexec _ _ _ _ _ Hin) as [Hs [Hurl [Hbody Hheaders]]].
  all: simpl in Hs; injection Hs as Hs; subst.
  all: do 8 eexists.
  all: repeat split; first [reflexivity | eassumption | solve [find_event]].
Qed.

(** X12: the one build request [main] can make.  Any POST of a run of
    [main] goes, on the session opened before, to the build endpoint of the
    default service, with the API key of the environment as bearer token,
    and asks to stake exactly 1.0 from the wallet of the keypair decoded
    from [AGENT_PRIVATE_KEY], with no validator named. *)
Theorem main_build_request :
  forall (w : world) (pre post : list event) (s : ClientSession) (url : string)
         (body : value) (headers : list (string * string))
         (r : result ClientResponse),
    events (run (main w)) = pre ++ EPost s url body headers r :: post ->
    exists (key private_key : string) (secret : bytes) (kp : Keypair),
      getenv w "PHASE_API_KEY" = Some key
      /\ getenv w "AGENT_PRIVATE_KEY" = Some private_key
      /\ b64decode w (JStr private_key) = Ok secret
      /\ from_secret_key w secret = Ok kp
      /\ url = "https://staking-api.phase.com/stake/build"
      /\ body = JObj [("agentWallet", JStr (base58 (public_key kp)));
                      ("stakeAmount", JFloat 1.0%float)]
      /\ headers = [("Content-Type", "application/json");
                    ("Authorization", ("Bearer " ++ key)%string)]
      /\ In (ENewSession (Ok s)) pre.
Proof.
  intros w pre post s url body headers r Hcut.
  destruct (main_post_context w pre post s url body headers r Hcut)
    as [key [private_key [secret [kp [c [response [lamports [balance_sol
       [Hkey [Hprivate [Hsecret [Hkp [Hurl [Hbody [Hheaders [Hsession _]]]]]]]]]]]]]]]].
  exists key, private_key, secret, kp. repeat split; assumption.
Qed.

Lemma main_build_request_witness :
  exists kp : Keypair,
    JObj (build_payload (public_key agent) 1.0%float None)
    = JObj [("agentWallet", JStr (base58 (public_key kp)));
            ("stakeAmount", JFloat 1.0%float)].
Proof.
  destruct (main_build_request (happy 2000000000)
              (firstn 6 (events (run (main (happy 2000000000)))))
              (skipn 7 (events (run (main (happy 2000000000)))))
              session0 "https://staking-api.phase.com/stake/build"
              (JObj (build_payload (public_key agent) 1.0%float None))
              (build_headers entered) (answer 200 build_body) eq_refl)
    as [key [private_key [secret [kp [_ [_ [_ [_ [_ [Hbody _]]]]]]]]]].
  exists kp. exact Hbody.
Defined.

(** X13: [main] asks to build a stake only after the balance check passed.
    Before any POST of a run of [main] there is a balance query, for the
    very wallet the request stakes from, that was answered with a balance
    which is not below 1.1. *)
Theorem main_stakes_after_balance_check :
  forall (w : world) (pre post : list event) (s : ClientSession) (url : string)
         (body : value) (headers : list (string * string))
         (r : result ClientResponse),
    events (run (main w)) = pre ++ EPost s url body headers r :: post ->
    exists (wallet : PublicKey) (c : AsyncClient) (response lamports : value)
           (balance_sol : float),
      getitem body "agentWallet" = Ok (JStr (base58 wallet))
      /\ In (EGetBalance c wallet (Ok response)) pre
      /\ getitem2 response "result" "value" = Ok lamports
      /\ truediv_int lamports lamports_per_sol = Ok balance_sol
      /\ PrimFloat.ltb balance_sol minimum_balance = false.
Proof.
  intros w pre post s url body headers r Hcut.
  destruct (main_post_context w pre post s url body headers r Hcut)
    as [key [private_key [secret [kp [c [response [lamports [balance_sol
       [_ [_ [_ [_ [_ [Hbody [_ [_ [Hbalance [Hvalue [Hdiv Hlt]]]]]]]]]]]]]]]]]]].
  exists (public_key kp), c, response, lamports, balance_sol.
  subst body. repeat split; assumption.
Qed.

Lemma main_stakes_after_balance_check_witness :
  exists (response : value) (balance_sol : float),
    In (EGetBalance mainnet (public_key agent) (Ok response))
       (firstn 6 (events (run (main (happy 2000000000)))))
    /\ truediv_int (JInt 2000000000) lamports_per_sol = Ok balance_sol
    /\ PrimFloat.ltb balance_sol minimum_balance = false.
Proof.
  destruct (main_stakes_after_balance_check (happy 2000000000)
              (firstn 6 (events (run (main (happy 2000000000)))))
              (skipn 7 (events (run (main (happy 2000000000)))))
              session0 "https://staking-api.phase.com/stake/build"
              (JObj (build_payload (public_key agent) 1.0%float None))
              (build_headers entered) (answer 200 build_body) eq_refl)
    as [wallet [c [response [lamports [balance_sol _]]]]].
  exists (JObj [("result", JObj [("value", JInt 2000000000)])]), 2.0%float.
  split; [simpl; auto 10 | split; reflexivity].
Defined.

(** *** The health check in [main] *)

(** X14: [main] does not act on the health it asked for: whenever it has
    printed that the service is unhealthy, what it does next is to query
    the balance, as it does after the healthy line. *)
Theorem main_goes_on_when_unhealthy :
  forall (w : world) (pre post : list event),
    events (run (main w)) = pre ++ EPrint Unhealthy :: post ->
    exists (c : AsyncClient) (pk : PublicKey) (r : result value)
           (rest : list event),
      post = EGetBalance c pk r :: rest.
Proof.
  intros w pre post.
  main_start w.
  1, 3, 4: simpl; intros Hcut; peel cut_cons Hcut; cut_end Hcut.
  main_run_cases execute_staking_events_in execute_staking_keeps_frame.
  all: simpl; intros Hcut; peel cut_cons Hcut.
  all: try (cut_end Hcut).
  all: try (eexists _, _, _, _; reflexivity).
  all: match goal with
       | x : list event |- _ =>
           match type of Hcut with
           | _ = x ++ ?ev :: ?q =>
               assert (Hin : In ev (x ++ ev :: q)) by (apply in_elt);
               rewrite <- Hcut in Hin
           end
       end.
  all: in_cases Hin.
  all: apply Hexec in Hin; discriminate Hin.
Qed.

Lemma main_goes_on_when_unhealthy_witness :
  exists (c : AsyncClient) (pk : PublicKey) (r : result value) (rest : list event),
    skipn 3 (events (run (main (scenario 2000000000 (answer 503 JNull)
                                  (answer 200 build_body)))))
    = EGetBalance c pk r :: rest.
Proof.
  exact (main_goes_on_when_unhealthy
           (scenario 2000000000 (answer 503 JNull) (answer 200 build_body))
           (firstn 2 (events (run (main (scenario 2000000000 (answer 503 JNull)
                                           (answer 200 build_body))))))
           _ eq_refl).
Defined.

(** *** Errors and cleanup in [main] *)

Lemma execute_staking_never_closes :
  forall (w : world) (self : PhaseStakingClient) (rpc : AsyncClient)
         (kp : Keypair) (stake_amount : float) (validator : option PublicKey)
         (fr : frame) (h : history),
    count is_close_rpc
      (events (execute_staking w self rpc kp stake_amount validator fr h)) = 0%nat.
Proof.
  intros w self rpc kp stake_amount validator fr h.
  staking_cases; reflexivity.
Qed.

Lemma ends_cons :
  forall (A : Type) (x : A) (l pre tail : list A),
    l = pre ++ tail -> x :: l = (x :: pre) ++ tail.
Proof. intros A x l pre tail H. rewrite H. reflexivity. Qed.

Lemma ends_app :
  forall (A : Type) (l m pre tail : list A),
    m = pre ++ tail -> l ++ m = (l ++ pre) ++ tail.
Proof. intros A l m pre tail H. rewrite H. apply app_assoc. Qed.

(** X15: once the session is open, [main] closes the RPC client on every
    path: the closing of the client is the last event of the run, whether
    the run returns or raises, and the client is closed once. *)
Theorem main_closes_rpc_client :
  forall (w : world) (s : ClientSession),
    configured w = true ->
    new_session w [] = Ok s ->
    exists (pre : list event) (r : result unit),
      events (run (main w))
      = pre ++ [ECloseRpc {| endpoint := configured_rpc_url w;
                             commitment := Confirmed |} r]
      /\ count is_close_rpc (events (run (main w))) = 1%nat.
Proof.
  intros w s. unfold configured, configured_rpc_url.
  main_start w.
  1, 3, 4: try (rewrite Hunset); simpl; try rewrite orb_true_r; discriminate.
  intros _. revert s.
  unfold main_block, check_health.
  main_cases.
  all: try match goal with
       | |- context [execute_staking ?w ?a ?b ?c ?d ?e ?f ?g] =>
           pose proof (execute_staking_never_closes w a b c d e f g) as Hexec;
           pose proof (execute_staking_keeps_frame w a b c d e f g) as Hframe;
           destruct (execute_staking w a b c d e f g) as [[? ?] [?|?]];
           simpl in Hframe; subst;
           main_cases
       end.
  all: intros s Hnew; try discriminate Hnew.
  all: simpl; eexists _, _; split.
  all: try (repeat first [ exact (eq_refl : _ = [] ++ _)
                         | apply ends_cons
                         | apply ends_app ]; fail).
  all: unfold count, events in *; simpl in *;
    repeat (rewrite filter_app, length_app); simpl; try rewrite Hexec;
    reflexivity.
Qed.

Lemma main_closes_rpc_client_witness :
  count is_close_rpc (events (run (main (happy 1050000000)))) = 1%nat.
Proof.
  destruct (main_closes_rpc_client (happy 1050000000) session0 eq_refl eq_refl)
    as [pre [r [_ Hcount]]].
  exact Hcount.
Defined.

(** X16: [main] hides no error.  If a run of [main] raises an exception,
    then the run printed the error line for it, or it is the exception of
    the closing of the RPC client, or it is the [UnboundLocalError] of that
    closing; and a run that printed an error line does raise. *)
Theorem main_reports_errors :
  forall (w : world),
    (forall e : exn,
        outcome (run (main w)) = Raise e ->
        In (EPrint (ErrorLine e)) (events (run (main w)))
        \/ (exists c : AsyncClient, In (ECloseRpc c (Raise e)) (events (run (main w))))
        \/ e = UnboundLocalError "solana_client")
    /\ (forall e : exn,
           In (EPrint (ErrorLine e)) (events (run (main w))) ->
           exists e' : exn, outcome (run (main w)) = Raise e').
Proof.
  intros w. split; intros e.
  - main_start w.
    1, 3, 4: discriminate.
    main_run_cases execute_staking_events_in execute_staking_keeps_frame.
    all: simpl; intros Hout; try discriminate Hout.
    all: injection Hout as Hout; subst.
    all: first [ left; solve [find_event]
               | right; left; eexists; solve [find_event]
               | right; right; reflexivity ].
  - main_start w.
    1, 3, 4: simpl; intros Hin; in_cases Hin.
    main_run_cases execute_staking_events_in execute_staking_keeps_frame.
    all: simpl; intros Hin; in_cases Hin.
    all: try (apply Hexec in Hin; discriminate Hin).
    all: eexists; reflexivity.
Qed.
